(** * Web Media Server: a shallow embedding of [web_media_server.py]

    The development follows the layout of the Python module: string and
    path primitives of the Python library the server calls, the file
    system the handlers observe, the conversion adapter, the sync
    pipeline, and the HTTP handler [FileBrowser].

    Conventions.
    - A Python [str] is a [string]; characters are bytes, so text outside
      ASCII is its UTF-8 (URL) or Latin-1 (header) encoding.
    - [os.path] is [posixpath].
    - The file system is a finite map from absolute, normalised paths to
      nodes; the external tool (ffmpeg) is an oracle. *)

From stdpp Require Import gmap strings list fin_maps.
From Stdlib Require Import ZArith String Ascii Lia Bool.
From Stdlib Require Import Strings.Byte.
From Stdlib Require Import Sorting.Sorted Sorting.Permutation.
From Stdlib Require Import DecimalString Decimal.
From Stdlib Require Import Floats.PrimFloat.

Open Scope string_scope.
Open Scope Z_scope.

(** ** Python string primitives *)

Module PyStr.

(** [s.startswith(pre)] *)
Fixpoint startswith (s pre : string) {struct pre} : bool :=
  match pre with
  | EmptyString => true
  | String c pre' =>
      match s with
      | EmptyString => false
      | String d s' => Ascii.eqb c d && startswith s' pre'
      end
  end.

(** [s.endswith(suf)] *)
Definition endswith (s suf : string) : bool :=
  let n := String.length s in
  let k := String.length suf in
  if (k <=? n)%nat then String.eqb (String.substring (n - k) k s) suf
  else false.

(** [s[n:]] for [0 <= n] *)
Fixpoint drop (n : nat) (s : string) : string :=
  match n, s with
  | O, _ => s
  | S _, EmptyString => EmptyString
  | S k, String _ r => drop k r
  end.

(** [s.split(sep)] for a one-character separator. *)
Fixpoint split (sep : ascii) (s : string) : list string :=
  match s with
  | EmptyString => [EmptyString]
  | String c r =>
      if Ascii.eqb c sep then EmptyString :: split sep r
      else match split sep r with
           | [] => [String c EmptyString]
           | h :: t => String c h :: t
           end
  end.

(** [sep.join(parts)] *)
Fixpoint join (sep : string) (parts : list string) : string :=
  match parts with
  | [] => EmptyString
  | [p] => p
  | p :: rest => p ++ sep ++ join sep rest
  end.

(** [s.replace(old, new)] for a non-empty [old]: occurrences are found
    left to right and do not overlap; [skip] counts the characters of an
    occurrence still to be passed over. *)
Fixpoint replace_from (old new : string) (skip : nat) (s : string) : string :=
  match s with
  | EmptyString => EmptyString
  | String c r =>
      match skip with
      | S k => replace_from old new k r
      | O =>
          if startswith s old
          then new ++ replace_from old new (String.length old - 1) r
          else String c (replace_from old new O r)
      end
  end.

Definition replace (s old new : string) : string := replace_from old new O s.

(** [c in s] for a character *)
Fixpoint contains_char (c : ascii) (s : string) : bool :=
  match s with
  | EmptyString => false
  | String d r => Ascii.eqb c d || contains_char c r
  end.

(** [sub in s] *)
Fixpoint contains (sub s : string) : bool :=
  startswith s sub ||
  match s with
  | EmptyString => false
  | String _ r => contains sub r
  end.

(** [s.lower()] on ASCII letters. *)
Definition lower_char (c : ascii) : ascii :=
  let n := nat_of_ascii c in
  if ((65 <=? n) && (n <=? 90))%nat then ascii_of_nat (n + 32) else c.

Fixpoint lower (s : string) : string :=
  match s with
  | EmptyString => EmptyString
  | String c r => String (lower_char c) (lower r)
  end.

(** [s.rstrip(c)] and [s.lstrip(c)] for one character *)
Fixpoint rstrip (c : ascii) (s : string) : string :=
  match s with
  | EmptyString => EmptyString
  | String d r =>
      match rstrip c r with
      | EmptyString => if Ascii.eqb d c then EmptyString else String d EmptyString
      | r' => String d r'
      end
  end.

Fixpoint lstrip (c : ascii) (s : string) : string :=
  match s with
  | EmptyString => EmptyString
  | String d r => if Ascii.eqb d c then lstrip c r else s
  end.

(** [str(n)] for an integer *)
Definition str_of_Z (n : Z) : string := NilZero.string_of_int (Z.to_int n).

(** *** [int(s)]

    Surrounding white space is ignored, one sign is allowed, and the
    digits may be grouped by single underscores.  Only ASCII digits and
    the ASCII and Latin-1 white space are recognised. *)

Definition is_space (c : ascii) : bool :=
  let n := nat_of_ascii c in
  (((9 <=? n) && (n <=? 13)) || ((28 <=? n) && (n <=? 32))
   || (n =? 133) || (n =? 160))%nat.

Definition digit_of (c : ascii) : option Z :=
  let n := nat_of_ascii c in
  if ((48 <=? n) && (n <=? 57))%nat then Some (Z.of_nat (n - 48)) else None.

Definition underscore : ascii := "_"%char.

(** [digits acc prev_digit s]: the value of the digit string [s] read
    after the digits accumulated in [acc]; [prev_digit] tells whether
    the previous character was a digit (an underscore needs one on both
    sides). *)
Fixpoint digits (acc : Z) (prev_digit : bool) (s : string) : option Z :=
  match s with
  | EmptyString => if prev_digit then Some acc else None
  | String c r =>
      match digit_of c with
      | Some d => digits (10 * acc + d) true r
      | None =>
          if Ascii.eqb c underscore && prev_digit
          then match r with
               | EmptyString => None
               | String c' _ =>
                   match digit_of c' with
                   | Some _ => digits acc false r
                   | None => None
                   end
               end
          else None
      end
  end.

Fixpoint lstrip_space (s : string) : string :=
  match s with
  | EmptyString => EmptyString
  | String c r => if is_space c then lstrip_space r else s
  end.

Fixpoint rstrip_space (s : string) : string :=
  match s with
  | EmptyString => EmptyString
  | String c r =>
      match rstrip_space r with
      | EmptyString => if is_space c then EmptyString else String c EmptyString
      | r' => String c r'
      end
  end.

Definition strip_space (s : string) : string := rstrip_space (lstrip_space s).

Definition int (s : string) : option Z :=
  match strip_space s with
  | EmptyString => None
  | String c r =>
      if Ascii.eqb c "-"%char then option_map Z.opp (digits 0 false r)
      else if Ascii.eqb c "+"%char then digits 0 false r
      else digits 0 false (String c r)
  end.

End PyStr.

(** ** [os.path] (POSIX flavour) and [urllib.parse] *)

Module PosixPath.

Definition slash : ascii := "/"%char.
Definition dot : ascii := "."%char.

(** [s.rfind(c)]: index of the last [c], or [-1]. *)
Fixpoint rfind_from (c : ascii) (i : Z) (last : Z) (s : string) : Z :=
  match s with
  | EmptyString => last
  | String d r => rfind_from c (i + 1) (if Ascii.eqb d c then i else last) r
  end.

Definition rfind (c : ascii) (s : string) : Z := rfind_from c 0 (-1) s.

(** [s[:n]] and [s[n:]] for [0 <= n] *)
Definition take (n : Z) (s : string) : string :=
  String.substring 0 (Z.to_nat n) s.
Definition drop (n : Z) (s : string) : string := PyStr.drop (Z.to_nat n) s.

Fixpoint all_char (c : ascii) (s : string) : bool :=
  match s with
  | EmptyString => true
  | String d r => Ascii.eqb d c && all_char c r
  end.

(** [posixpath.join(a, b)] *)
Definition join (a b : string) : string :=
  if PyStr.startswith b "/" then b
  else if String.eqb a "" || PyStr.endswith a "/" then a ++ b
  else a ++ "/" ++ b.

(** [posixpath.join(a, *ps)] *)
Definition join_all (a : string) (ps : list string) : string :=
  fold_left join ps a.

(** One turn of the component loop of [posixpath.normpath]. *)
Definition norm_step (initial_slashes : nat) (new_comps : list string)
    (comp : string) : list string :=
  if String.eqb comp "" || String.eqb comp "." then new_comps
  else if negb (String.eqb comp "..")
          || (Nat.eqb initial_slashes 0 && Nat.eqb (List.length new_comps) 0)
          || (negb (Nat.eqb (List.length new_comps) 0)
              && String.eqb (List.last new_comps "") "..")
       then List.app new_comps [comp]
       else List.removelast new_comps.

(** [posixpath.normpath(path)] *)
Definition normpath (path : string) : string :=
  if String.eqb path "" then "."
  else
    let initial_slashes :=
      if PyStr.startswith path "/"
      then if PyStr.startswith path "//" && negb (PyStr.startswith path "///")
           then 2%nat else 1%nat
      else 0%nat in
    let comps := PyStr.split slash path in
    let new_comps := fold_left (norm_step initial_slashes) comps [] in
    let path' := PyStr.join "/" new_comps in
    let path' := String.concat "" (List.repeat "/" initial_slashes) ++ path' in
    if String.eqb path' "" then "." else path'.

(** [posixpath.abspath(path)] in working directory [cwd]. *)
Definition abspath (cwd path : string) : string :=
  if PyStr.startswith path "/" then normpath path
  else normpath (join cwd path).

(** [posixpath.dirname(p)] *)
Definition dirname (p : string) : string :=
  let i := rfind slash p + 1 in
  let head := take i p in
  if negb (String.eqb head "") && negb (all_char slash head)
  then PyStr.rstrip slash head
  else head.

(** [posixpath.splitext(p)]: the extension starts at the last dot of the
    last component, unless only dots precede it there. *)
Definition splitext (p : string) : string * string :=
  let sepIndex := rfind slash p in
  let dotIndex := rfind dot p in
  if sepIndex <? dotIndex then
    let leading := String.substring (Z.to_nat (sepIndex + 1))
                     (Z.to_nat (dotIndex - (sepIndex + 1))) p in
    if all_char dot leading then (p, "")
    else (take dotIndex p, drop dotIndex p)
  else (p, "").

(** Longest common prefix of two component lists
    ([os.path.commonprefix] on lists). *)
Fixpoint commonprefix (a b : list string) : list string :=
  match a, b with
  | x :: a', y :: b' => if String.eqb x y then x :: commonprefix a' b' else []
  | _, _ => []
  end.

Definition nonempty_comps (p : string) : list string :=
  List.filter (fun x => negb (String.eqb x "")) (PyStr.split slash p).

(** [posixpath.relpath(path, start)] in working directory [cwd]. *)
Definition relpath (cwd path start : string) : string :=
  let start_list := nonempty_comps (abspath cwd start) in
  let path_list := nonempty_comps (abspath cwd path) in
  let i := List.length (commonprefix start_list path_list) in
  let rel_list :=
    List.app (List.repeat ".." (List.length start_list - i))
             (List.skipn i path_list) in
  match rel_list with
  | [] => "."
  | x :: rest => join_all x rest
  end.

End PosixPath.

Module UrlLib.

Definition hex_val (c : ascii) : option nat :=
  let n := nat_of_ascii c in
  if ((48 <=? n) && (n <=? 57))%nat then Some (n - 48)%nat
  else if ((65 <=? n) && (n <=? 70))%nat then Some (n - 55)%nat
  else if ((97 <=? n) && (n <=? 102))%nat then Some (n - 87)%nat
  else None.

(** [urllib.parse.unquote(s)]: every [%XY] with two hexadecimal digits
    becomes the byte [XY]; any other [%] stays. *)
Fixpoint unquote (s : string) : string :=
  match s with
  | EmptyString => EmptyString
  | String c r =>
      if Ascii.eqb c "%"%char then
        match r with
        | String h (String l r') =>
            match hex_val h, hex_val l with
            | Some a, Some b => String (ascii_of_nat (16 * a + b)) (unquote r')
            | _, _ => String c (unquote r)
            end
        | _ => String c (unquote r)
        end
      else String c (unquote r)
  end.

(** First [=]-split of a query field: [nv.split('=', 1)]. *)
Fixpoint split_eq (s : string) : option (string * string) :=
  match s with
  | EmptyString => None
  | String c r =>
      if Ascii.eqb c "="%char then Some (EmptyString, r)
      else match split_eq r with
           | Some (n, v) => Some (String c n, v)
           | None => None
           end
  end.

Definition plus_to_space (s : string) : string := PyStr.replace s "+" " ".

(** [urllib.parse.parse_qsl(query)]: fields without [=] or with a blank
    value are dropped. *)
Definition parse_qsl (query : string) : list (string * string) :=
  List.flat_map
    (fun field =>
       match split_eq field with
       | Some (n, v) =>
           if String.eqb v "" then []
           else [(unquote (plus_to_space n), unquote (plus_to_space v))]
       | None => []
       end)
    (PyStr.split "&" query).

(** [parse_qs(query).get(key, [default])[0]] *)
Definition qs_first (query key default : string) : string :=
  match List.find (fun nv => String.eqb (fst nv) key) (parse_qsl query) with
  | Some (_, v) => v
  | None => default
  end.

End UrlLib.

(** ** The file system seen by the server *)

Module FS.

Inductive node :=
| File (content : list Byte.byte)
| Dir.

(** What [os.path.getsize] reports for a directory (one block). *)
Definition dir_st_size : Z := 4096.

Definition exists_ (m : gmap string node) (p : string) : bool :=
  match m !! p with Some _ => true | None => false end.

Definition isdir (m : gmap string node) (p : string) : bool :=
  match m !! p with Some Dir => true | _ => false end.

Definition isfile (m : gmap string node) (p : string) : bool :=
  match m !! p with Some (File _) => true | _ => false end.

(** [os.path.getsize]; [None] stands for [OSError]. *)
Definition getsize (m : gmap string node) (p : string) : option Z :=
  match m !! p with
  | Some (File c) => Some (Z.of_nat (List.length c))
  | Some Dir => Some dir_st_size
  | None => None
  end.

(** [open(p, "rb").read()]; [None] stands for [OSError]. *)
Definition read_all (m : gmap string node) (p : string) : option (list Byte.byte) :=
  match m !! p with
  | Some (File c) => Some c
  | _ => None
  end.

(** [f.seek(start); f.read(n)]: a negative [n] reads to the end of the
    file, a negative [start] raises. *)
Definition read_at (m : gmap string node) (p : string) (start n : Z)
  : option (list Byte.byte) :=
  match m !! p with
  | Some (File c) =>
      if start <? 0 then None
      else
        let rest := List.skipn (Z.to_nat start) c in
        Some (if n <? 0 then rest else List.firstn (Z.to_nat n) rest)
  | _ => None
  end.

Definition basename (p : string) : string :=
  PosixPath.drop (PosixPath.rfind PosixPath.slash p + 1) p.

Definition child_name (d k : string) : option string :=
  if String.eqb (PosixPath.dirname k) d && negb (String.eqb k d)
  then Some (basename k) else None.

(** [os.listdir(d)], in the order the map enumerates its keys. *)
Definition listdir (m : gmap string node) (d : string) : option (list string) :=
  if isdir m d
  then Some (omap (fun kv => child_name d (fst kv)) (map_to_list m))
  else None.

End FS.

(** ** Configuration (the module's globals) *)

Record config := {
  BASE_SERVER_DIR : option string;
  BASE_THUMB_DIR : option string;
  BASE_COVER_DIR : option string;
  SOURCE_DIR : option string;
  MODE : string;
  SHOW_FFMPEG_OUTPUT : bool;
  SHOW_AUDIO_META : bool;
  SCRIPT_DIR : string;
  DATA_DIR : string;
  FFMPEG_EXE : string;
  TEMP_ROOT : string          (* [temp_root_path()] *)
}.

Definition IMAGE_EXT : list string :=
  [".jpg"; ".jpeg"; ".png"; ".gif"; ".webp"; ".bmp"; ".tif"; ".tiff"].
Definition VIDEO_EXT : list string :=
  [".mp4"; ".mov"; ".m4v"; ".avi"; ".mkv"; ".wmv"; ".flv"].
Definition AUDIO_EXT : list string :=
  [".mp3"; ".wav"; ".flac"; ".ogg"; ".aac"; ".m4a"; ".wma"].

Definition MAX_IMAGE_DIM : Z := 2048.
Definition MAX_THUMB_DIM : Z := 320.

(** [ext in EXT] *)
Definition ext_in (ext : string) (exts : list string) : bool :=
  List.existsb (String.eqb ext) exts.

(** [os.path.splitext(p)[1].lower()] *)
Definition ext_of (p : string) : string := PyStr.lower (snd (PosixPath.splitext p)).

(** ** The HTTP handler [FileBrowser] *)

Module Handler.

(** A request after [urlparse(self.path)]: [parsed.path], [parsed.query]
    and the [Range] header. *)
Record request := {
  path_only : string;
  query : string;
  range_header : option string
}.

(** One [<li>] of a listing. *)
Inductive row :=
| FolderRow (link name : string)
| ThumbRow (view_link thumb_src name : string)
| IconRow (icon link name : string)
| PlaceholderRow.

Inductive nav_button :=
| NavLink (href : string)
| NavDisabled.

Record nav := {
  nav_prev : nav_button;
  nav_next : nav_button;
  nav_label : string
}.

(** The body [send_dir] renders, before [wrap_html]. *)
Record listing := {
  title_text : string;
  toggle_href : string;
  toggle_label : string;
  parent_url : option string;
  page_shown : Z;
  total_pages : Z;
  rows : list row;
  pager : option nav
}.

(** What the handler puts on the wire.  [Sent] with body [None] is a
    response whose headers went out and whose body raised. *)
Inductive response :=
| SendError (code : Z) (message : string)
| Sent (status : Z) (headers : list (string * string))
       (body : option (list Byte.byte))
| ListingPage (directory rel : string) (page : listing)
| PlayerPage (filepath rel : string)
| Raised.

(** [urllib.parse.quote(s)] with the default [safe='/']. *)
Definition always_safe (c : ascii) : bool :=
  let n := nat_of_ascii c in
  (((65 <=? n) && (n <=? 90)) || ((97 <=? n) && (n <=? 122))
   || ((48 <=? n) && (n <=? 57))
   || (n =? 95) || (n =? 46) || (n =? 45) || (n =? 126) || (n =? 47))%nat.

Definition hex_digit (n : nat) : ascii :=
  if (n <? 10)%nat then ascii_of_nat (48 + n) else ascii_of_nat (55 + n).

Fixpoint quote (s : string) : string :=
  match s with
  | EmptyString => EmptyString
  | String c r =>
      if always_safe c then String c (quote r)
      else
        let n := nat_of_ascii c in
        String "%"%char
          (String (hex_digit (n / 16)) (String (hex_digit (n mod 16)) (quote r)))
  end.

(** [sorted(names)]: a stable insertion sort by code point order. *)
Fixpoint insert_sorted (x : string) (l : list string) : list string :=
  match l with
  | [] => [x]
  | y :: r => if String.leb x y then x :: l else y :: insert_sorted x r
  end.

Definition sorted (l : list string) : list string :=
  List.fold_right insert_sorted [] l.

Definition mime_thumbnail (ext : string) : string :=
  if String.eqb ext ".jpg" then "image/jpeg"
  else if String.eqb ext ".jpeg" then "image/jpeg"
  else if String.eqb ext ".png" then "image/png"
  else if String.eqb ext ".gif" then "image/gif"
  else if String.eqb ext ".webp" then "image/webp"
  else "image/jpeg".

Definition mime_file (ext : string) : string :=
  if String.eqb ext ".jpg" then "image/jpeg"
  else if String.eqb ext ".jpeg" then "image/jpeg"
  else if String.eqb ext ".png" then "image/png"
  else if String.eqb ext ".gif" then "image/gif"
  else if String.eqb ext ".webp" then "image/webp"
  else if String.eqb ext ".mp4" then "video/mp4"
  else if String.eqb ext ".mov" then "video/quicktime"
  else if String.eqb ext ".m4v" then "video/quicktime"
  else if String.eqb ext ".avi" then "video/x-msvideo"
  else if String.eqb ext ".mkv" then "video/x-matroska"
  else if String.eqb ext ".mp3" then "audio/mpeg"
  else if String.eqb ext ".wav" then "audio/wav"
  else if String.eqb ext ".flac" then "audio/flac"
  else if String.eqb ext ".ogg" then "audio/ogg"
  else if String.eqb ext ".aac" then "audio/mp4"
  else if String.eqb ext ".m4a" then "audio/mp4"
  else "application/octet-stream".

(** The static-asset replies of [do_GET]: 404 unless a regular file,
    else the whole file with its type and length. *)
Definition send_asset (m : gmap string FS.node) (asset_path content_type : string)
  : response :=
  if negb (FS.isfile m asset_path) then SendError 404 "Icon not found"
  else
    match FS.getsize m asset_path with
    | None => Raised
    | Some size =>
        Sent 200 [("Content-Type", content_type);
                  ("Content-Length", PyStr.str_of_Z size)]
             (FS.read_all m asset_path)
    end.

(** [send_thumbnail] *)
Definition send_thumbnail (m : gmap string FS.node) (filepath : string) : response :=
  let mime := mime_thumbnail (ext_of filepath) in
  match FS.getsize m filepath with
  | None => Raised
  | Some size =>
      Sent 200 [("Content-Type", mime); ("Content-Length", PyStr.str_of_Z size)]
           (FS.read_all m filepath)
  end.

(** The [try] block of [send_file]: [None] when it raises. *)
Definition parse_range (range_header : string) (file_size : Z) : option (Z * Z) :=
  let bytes_range := PyStr.split "-" (PyStr.replace range_header "bytes=" "") in
  b0 ← List.nth_error bytes_range 0;
  start ← (if String.eqb b0 "" then Some 0 else PyStr.int b0);
  b1 ← List.nth_error bytes_range 1;
  end_ ← (if String.eqb b1 "" then Some (file_size - 1) else PyStr.int b1);
  Some (start, Z.min end_ (file_size - 1)).

(** [send_file] *)
Definition send_file (m : gmap string FS.node) (range_header : option string)
    (filepath : string) : response :=
  if negb (FS.exists_ m filepath) then SendError 404 "File not found"
  else
    match FS.getsize m filepath with
    | None => Raised
    | Some file_size =>
        let mime := mime_file (ext_of filepath) in
        let ranged :=
          match range_header with
          | Some h => negb (String.eqb h "")
          | None => false
          end in
        if ranged then
          let h := match range_header with Some h => h | None => "" end in
          let '(start, end_) :=
            match parse_range h file_size with
            | Some se => se
            | None => (0, file_size - 1)
            end in
          let chunk_size := (end_ - start) + 1 in
          Sent 206
               [("Content-Type", mime);
                ("Accept-Ranges", "bytes");
                ("Content-Range",
                 "bytes " ++ PyStr.str_of_Z start ++ "-" ++ PyStr.str_of_Z end_
                          ++ "/" ++ PyStr.str_of_Z file_size);
                ("Content-Length", PyStr.str_of_Z chunk_size)]
               (FS.read_at m filepath start chunk_size)
        else
          Sent 200
               [("Content-Type", mime);
                ("Content-Length", PyStr.str_of_Z file_size);
                ("Accept-Ranges", "bytes")]
               (FS.read_all m filepath)
    end.

(** [send_player]: 404 for a missing file, else the player page (its
    markup is not modelled). *)
Definition send_player (m : gmap string FS.node) (filepath rel : string) : response :=
  if negb (FS.exists_ m filepath) then SendError 404 "File not found"
  else PlayerPage filepath rel.

Definition page_size : Z := 10.

(** [items[a:b]] for [0 <= a <= b] *)
Definition slice {A} (l : list A) (a b : Z) : list A :=
  List.firstn (Z.to_nat (b - a)) (List.skipn (Z.to_nat a) l).

(** [max(1, int(page_param))], and 1 when [int] raises. *)
Definition parse_page (page_param : string) : Z :=
  match PyStr.int page_param with
  | Some n => Z.max 1 n
  | None => 1
  end.

Definition backslash : string := String (ascii_of_nat 92) EmptyString.

(** The body of the loop over [items_to_show] in [send_dir]. *)
Definition render_row (m : gmap string FS.node)
    (directory rel view_mode page_query name : string) : row :=
  let full_path := PosixPath.join directory name in
  let rel_path := PyStr.replace (PosixPath.join rel name) backslash "/" in
  let rel_path_quoted := quote rel_path in
  let ext := ext_of name in
  if FS.isdir m full_path then
    FolderRow ("/" ++ rel_path_quoted ++ "?mode=" ++ view_mode) name
  else if ext_in ext IMAGE_EXT || ext_in ext VIDEO_EXT || ext_in ext AUDIO_EXT then
    let view_link :=
      "/" ++ rel_path_quoted ++ "?view=1&mode=" ++ view_mode ++ page_query in
    if ext_in ext IMAGE_EXT then
      if negb (String.eqb view_mode "listmode") then
        let base_no_ext := fst (PosixPath.splitext rel_path) in
        let thumb_rel := base_no_ext ++ "_thumb.jpg" in
        ThumbRow view_link ("/__thumbs__/" ++ quote thumb_rel) name
      else IconRow "icon-image" view_link name
    else if ext_in ext VIDEO_EXT then IconRow "icon-video" view_link name
    else IconRow "icon-audio" view_link name
  else
    IconRow "icon-file"
      ("/" ++ rel_path_quoted ++ "?mode=" ++ view_mode ++ page_query) name.

(** [total_pages = max(1, (total_items + page_size - 1) // page_size)] *)
Definition total_pages_of (total_items : Z) : Z :=
  Z.max 1 ((total_items + page_size - 1) / page_size).

(** The page [send_dir] settles on in paged mode. *)
Definition clamp_page (page total : Z) : Z :=
  if total <? page then total else page.

(** [send_dir] *)
Definition send_dir (m : gmap string FS.node) (query_string : string)
    (directory rel : string) : response :=
  match FS.listdir m directory with
  | None => SendError 404 "Folder not accessible"
  | Some names =>
      let items := sorted names in
      let view_mode := UrlLib.qs_first query_string "mode" "paged" in
      let page_param := UrlLib.qs_first query_string "page" "1" in
      let page := parse_page page_param in
      let is_paged := String.eqb view_mode "paged" in
      let toggle_target := if is_paged then "listmode" else "paged" in
      let toggle := if is_paged then "List" else "Paged" in
      let page_query := if is_paged then "&page=" ++ PyStr.str_of_Z page else "" in
      let title := if String.eqb rel "" then "/" else rel in
      let parent_link :=
        if negb (String.eqb rel "") then
          let parent := PosixPath.dirname rel in
          let parent_base :=
            if negb (String.eqb parent "") then "/" ++ quote parent else "/" in
          let parent_query := "?mode=" ++ (if is_paged then "paged" else "listmode") in
          Some (parent_base ++ parent_query)
        else None in
      let total_items := Z.of_nat (List.length items) in
      let total := total_pages_of total_items in
      let page := if is_paged then clamp_page page total else page in
      let items_to_show :=
        if is_paged then
          let start_idx := (page - 1) * page_size in
          let end_idx := start_idx + page_size in
          slice items start_idx end_idx
        else items in
      let real_rows :=
        List.map (render_row m directory rel view_mode page_query) items_to_show in
      let placeholders :=
        if is_paged
        then List.repeat PlaceholderRow
               (Z.to_nat (page_size - Z.of_nat (List.length items_to_show)))
        else [] in
      let pager_ :=
        if is_paged && (1 <? total) then
          Some {| nav_prev :=
                    if 1 <? page
                    then NavLink ("/" ++ quote rel ++ "?mode=paged&page="
                                      ++ PyStr.str_of_Z (page - 1))
                    else NavDisabled;
                  nav_next :=
                    if page <? total
                    then NavLink ("/" ++ quote rel ++ "?mode=paged&page="
                                      ++ PyStr.str_of_Z (page + 1))
                    else NavDisabled;
                  nav_label :=
                    "Page " ++ PyStr.str_of_Z page ++ "/" ++ PyStr.str_of_Z total
                    ++ " | Files "
                    ++ PyStr.str_of_Z (Z.of_nat (List.length items_to_show))
                    ++ "/" ++ PyStr.str_of_Z page_size |}
        else None in
      ListingPage directory rel
        {| title_text := title;
           toggle_href := "/" ++ quote rel ++ "?mode=" ++ toggle_target;
           toggle_label := toggle;
           parent_url := parent_link;
           page_shown := page;
           total_pages := total;
           rows := List.app real_rows placeholders;
           pager := pager_ |}
  end.

(** The containment test shared by the three roots:
    [normpath(join(root, rel))] and whether it starts with
    [normpath(root)]. *)
Definition resolve_under (root rel : string) : string * bool :=
  let full := PosixPath.normpath (PosixPath.join root rel) in
  let root_norm := PosixPath.normpath root in
  (full, PyStr.startswith full root_norm).

(** The [/__thumbs__/] and [/__preview__/] branches of [do_GET]. *)
Definition serve_derivative (m : gmap string FS.node) (root : option string)
    (prefix_len : nat) (unconfigured missing : string) (path : string) : response :=
  match root with
  | None => SendError 404 unconfigured
  | Some base =>
      let rel := UrlLib.unquote (PyStr.drop prefix_len path) in
      let '(full, inside) := resolve_under base rel in
      if negb inside then SendError 403 "Forbidden"
      else if negb (FS.exists_ m full) then SendError 404 missing
      else send_thumbnail m full
  end.

(** [do_GET] *)
Definition do_GET (cfg : config) (m : gmap string FS.node) (req : request)
  : response :=
  match BASE_SERVER_DIR cfg with
  | None => SendError 500 "Server root is not configured"
  | Some base =>
      let p := path_only req in
      if String.eqb p "/folder.png" then
        send_asset m (PosixPath.join (SCRIPT_DIR cfg) "folder.png") "image/png"
      else if PyStr.startswith p "/thumbnail_" && PyStr.endswith p ".png" then
        send_asset m (PosixPath.join (DATA_DIR cfg) (PyStr.lstrip "/" p)) "image/png"
      else if String.eqb p "/icon.ico" then
        send_asset m (PosixPath.join (DATA_DIR cfg) "icon.ico") "image/x-icon"
      else if String.eqb p "/favicon.ico" then
        send_asset m (PosixPath.join (DATA_DIR cfg) "favicon.ico") "image/x-icon"
      else if String.eqb p "/apple-touch-icon.png" || String.eqb p "/favicon.png" then
        let candidates :=
          [PosixPath.join (DATA_DIR cfg) "apple-touch-icon.png";
           PosixPath.join (DATA_DIR cfg) "favicon.png";
           PosixPath.join (DATA_DIR cfg) "favicon.ico"] in
        match List.find (FS.isfile m) candidates with
        | None => SendError 404 "Icon not found"
        | Some ico_path =>
            send_asset m ico_path
              (if PyStr.endswith (PyStr.lower ico_path) ".png"
               then "image/png" else "image/x-icon")
        end
      else if PyStr.startswith p "/__thumbs__/" then
        serve_derivative m (BASE_THUMB_DIR cfg) (String.length "/__thumbs__/")
          "Thumbnails not configured" "Thumbnail not found" p
      else if PyStr.startswith p "/__preview__/" then
        serve_derivative m (BASE_COVER_DIR cfg) (String.length "/__preview__/")
          "Previews not configured" "Preview not found" p
      else
        let rel := UrlLib.unquote p in
        let rel := if PyStr.startswith rel "/" then PyStr.drop 1 rel else rel in
        let '(full, inside) := resolve_under base rel in
        let '(full, rel) := if negb inside
                            then (PosixPath.normpath base, "")
                            else (full, rel) in
        if FS.isdir m full then send_dir m (query req) full rel
        else if PyStr.contains "view=1" (query req) then send_player m full rel
        else send_file m (range_header req) full
  end.

End Handler.

(** ** The world of the background worker

    The worker changes the file system, prints progress lines and runs
    the external tool.  A computation takes a world to an outcome and a
    new world; an exception keeps the changes made before it.
    [set_hidden] and [hide_temp_path] only set the hidden attribute of
    a path, which the file system of the model does not record. *)

Module Sync.

Inductive event :=
| Printed (line : string)
| Ran (cmd : list string).

Record world := {
  files : gmap string FS.node;
  trace : list event
}.

Inductive outcome (A : Type) :=
| Ok (a : A)
| Raise
| OutOfFuel.

Arguments Ok {A} a.
Arguments Raise {A}.
Arguments OutOfFuel {A}.

Definition M (A : Type) : Type := world -> outcome A * world.

Definition ret {A} (a : A) : M A := fun w => (Ok a, w).

Definition bind {A B} (c : M A) (k : A -> M B) : M B :=
  fun w =>
    match c w with
    | (Ok a, w') => k a w'
    | (Raise, w') => (Raise, w')
    | (OutOfFuel, w') => (OutOfFuel, w')
    end.

Notation "'do' x <- c ; k" := (bind c (fun x => k))
  (at level 10, x name, c at level 100, k at level 200).
Notation "c ;; k" := (bind c (fun _ => k))
  (at level 100, k at level 200, right associativity).

Definition raise {A} : M A := fun w => (Raise, w).

Definition out_of_fuel {A} : M A := fun w => (OutOfFuel, w).

(** [try: c except Exception: ...]: [None] when [c] raised. *)
Definition try_ {A} (c : M A) : M (option A) :=
  fun w =>
    match c w with
    | (Ok a, w') => (Ok (Some a), w')
    | (Raise, w') => (Ok None, w')
    | (OutOfFuel, w') => (OutOfFuel, w')
    end.

Definition print (line : string) : M unit :=
  fun w => (Ok tt, {| files := files w; trace := List.app (trace w) [Printed line] |}).

Definition get_files : M (gmap string FS.node) := fun w => (Ok (files w), w).

Definition set_files (m : gmap string FS.node) : M unit :=
  fun w => (Ok tt, {| files := m; trace := trace w |}).

Definition path_exists (p : string) : M bool :=
  do m <- get_files; ret (FS.exists_ m p).

Definition path_isdir (p : string) : M bool :=
  do m <- get_files; ret (FS.isdir m p).

Definition path_getsize (p : string) : M Z :=
  do m <- get_files;
  match FS.getsize m p with
  | Some n => ret n
  | None => raise
  end.

(** [os.path.exists(p) and os.path.getsize(p) > 0] *)
Definition has_content (m : gmap string FS.node) (p : string) : bool :=
  FS.exists_ m p && match FS.getsize m p with Some n => 0 <? n | None => false end.

Definition has_children (m : gmap string FS.node) (d : string) : bool :=
  List.existsb
    (fun kv => match FS.child_name d (fst kv) with Some _ => true | None => false end)
    (map_to_list m).

(** [os.mkdir(p)] *)
Definition mkdir (p : string) : M unit :=
  do m <- get_files;
  if FS.exists_ m p then raise
  else if negb (FS.isdir m (PosixPath.dirname p)) then raise
  else set_files (<[p := FS.Dir]> m).

(** [os.path.split(p)] *)
Definition path_split (p : string) : string * string :=
  let i := PosixPath.rfind PosixPath.slash p + 1 in
  (PosixPath.dirname p, PosixPath.drop i p).

(** [os.makedirs(name, exist_ok=True)]; the recursion on the head of
    the path is bounded by [fuel].  The model has one kind of exception:
    when the inner call raises, the head is still missing and [mkdir]
    raises in turn, as the exception the library lets through would. *)
Fixpoint makedirs_fuel (fuel : nat) (name : string) : M unit :=
  match fuel with
  | O => out_of_fuel
  | S k =>
      let '(head, tail) := path_split name in
      let '(head, tail) :=
        if String.eqb tail "" then path_split head else (head, tail) in
      do missing <- (do e <- path_exists head;
                     ret (negb (String.eqb head "") && negb (String.eqb tail "")
                          && negb e));
      (if missing then (do _ <- try_ (makedirs_fuel k head); ret tt) else ret tt) ;;
      if missing && String.eqb tail "." then ret tt
      else
        do r <- try_ (mkdir name);
        match r with
        | Some _ => ret tt
        | None => do d <- path_isdir name; if d then ret tt else raise
        end
  end.

Definition makedirs (name : string) : M unit :=
  makedirs_fuel (S (String.length name)) name.

(** [os.remove(p)] *)
Definition remove (p : string) : M unit :=
  do m <- get_files;
  if FS.isfile m p then set_files (delete p m) else raise.

(** [os.rmdir(p)] *)
Definition rmdir (p : string) : M unit :=
  do m <- get_files;
  if FS.isdir m p && negb (has_children m p) then set_files (delete p m)
  else raise.

(** The [while True] loop of [remove_empty_dirs], bounded by [fuel]. *)
Fixpoint remove_empty_loop (fuel : nat) (stop current : string) : M unit :=
  match fuel with
  | O => out_of_fuel
  | S k =>
      if negb (PyStr.startswith current stop) then ret tt
      else if String.eqb current stop then ret tt
      else
        do r <- try_ (rmdir current);
        match r with
        | None => ret tt
        | Some _ => remove_empty_loop k stop (PosixPath.dirname current)
        end
  end.

(** What one run of the external tool did: whether the executable
    could be started, its exit status, and what became of the
    destination, the last argument of the command. *)
Inductive dst_effect :=
| Untouched
| Wrote (content : list Byte.byte)
| Removed.

Record run_result := {
  launched : bool;
  returncode : Z;
  effect : dst_effect
}.

(** The tool writes regular files in existing folders only. *)
Definition apply_effect (m : gmap string FS.node) (dst : string)
    (e : dst_effect) : gmap string FS.node :=
  match e with
  | Untouched => m
  | Wrote c =>
      if FS.isdir m dst then m
      else if FS.isdir m (PosixPath.dirname dst) then <[dst := FS.File c]> m
      else m
  | Removed => if FS.isfile m dst then delete dst m else m
  end.

(** [cmd.index(x)] *)
Fixpoint list_index (x : string) (l : list string) : option nat :=
  match l with
  | [] => None
  | y :: r => if String.eqb y x then Some O else option_map S (list_index x r)
  end.

(** The catalog: (relative path, size) pairs. *)
Definition catalog := list (string * Z).

(** [result.sort(key=lambda x: x[1])]: a stable sort on the size. *)
Fixpoint insert_by_size (x : string * Z) (l : catalog) : catalog :=
  match l with
  | [] => [x]
  | y :: r => if snd x <=? snd y then x :: l else y :: insert_by_size x r
  end.

Definition sort_by_size (l : catalog) : catalog :=
  List.fold_right insert_by_size [] l.

Section Worker.

Variable cfg : config.
(** The working directory, for [os.path.abspath]. *)
Variable cwd : string.
(** The external tool, and the two probes of [ffprobe]: the values their
    [try] blocks compute, [None] when the output is empty or the block
    raises. *)
Variable tool : list string -> gmap string FS.node -> run_result.
Variable probe_resolution : string -> option (Z * Z).
Variable probe_fps : string -> option float.

(** [subprocess.run(cmd, check=check)] *)
Definition subprocess_run (check : bool) (cmd : list string) : M unit :=
  fun w =>
    let r := tool cmd (files w) in
    let w' := {| files := files w; trace := List.app (trace w) [Ran cmd] |} in
    if negb (launched r) then (Raise, w')
    else
      let w'' := {| files := apply_effect (files w) (List.last cmd "") (effect r);
                    trace := trace w' |} in
      if check && negb (returncode r =? 0) then (Raise, w'') else (Ok tt, w'').

Definition ffprobe_resolution (path : string) : Z * Z :=
  match probe_resolution path with
  | Some wh => wh
  | None => (0, 0)
  end.

Definition ffprobe_fps (path : string) : float :=
  match probe_fps path with
  | Some f => f
  | None => 30%float
  end.

Definition temp_root_path : string := TEMP_ROOT cfg.

Definition ensure_temp_root : M string :=
  let root := temp_root_path in
  do e <- path_exists root;
  (if negb e then makedirs root else ret tt) ;;
  ret root.

Definition ensure_images_root : M string :=
  ensure_temp_root ;;
  let images_root := PosixPath.join temp_root_path "_images" in
  do e <- path_exists images_root;
  (if negb e then makedirs images_root else ret tt) ;;
  ret images_root.

(** [remove_empty_dirs(path)] with the default [stop]. *)
Definition remove_empty_dirs (path : string) : M unit :=
  let stop := PosixPath.abspath cwd temp_root_path in
  let current := PosixPath.abspath cwd path in
  remove_empty_loop (S (S (String.length current))) stop current.

(** [sha256_file]: the digest stands for the content it is taken of. *)
Definition sha256_file (path : string) : M (list Byte.byte) :=
  do m <- get_files;
  match FS.read_all m path with
  | Some c => ret c
  | None => raise
  end.

(** [copy_with_progress], without the progress bar. *)
Definition copy_with_progress (src dst : string) : M unit :=
  do m <- get_files;
  match FS.read_all m src with
  | None => raise
  | Some c =>
      if FS.isdir m dst || negb (FS.isdir m (PosixPath.dirname dst)) then raise
      else set_files (<[dst := FS.File c]> m)
  end.

(** The command of [convert_image_full]. *)
Definition image_cmd (src dst : string) : list string :=
  let '(w, h) := ffprobe_resolution src in
  let scale :=
    if (w =? 0) || (h =? 0) then "scale=" ++ PyStr.str_of_Z MAX_IMAGE_DIM ++ ":-2"
    else if h <=? w then "scale=" ++ PyStr.str_of_Z MAX_IMAGE_DIM ++ ":-2"
    else "scale=-2:" ++ PyStr.str_of_Z MAX_IMAGE_DIM in
  [FFMPEG_EXE cfg; "-y"; "-i"; src; "-vf"; scale; "-frames:v"; "1";
   "-q:v"; "2"; "-pix_fmt"; "yuvj420p"; dst].

Definition convert_image_full (src dst : string) : M unit :=
  subprocess_run false (image_cmd src dst).

(** The command of [convert_thumbnail]. *)
Definition thumbnail_cmd (src dst : string) : list string :=
  [FFMPEG_EXE cfg; "-y"; "-i"; src;
   "-vf"; "scale=" ++ PyStr.str_of_Z MAX_THUMB_DIM ++ ":"
          ++ PyStr.str_of_Z MAX_THUMB_DIM ++ ":force_original_aspect_ratio=decrease";
   "-frames:v"; "1"; "-q:v"; "5"; "-pix_fmt"; "yuvj420p"; dst].

Definition convert_thumbnail (src dst : string) : M unit :=
  subprocess_run false (thumbnail_cmd src dst).

(** The command of [convert_video] before the rate cap and [dst]. *)
Definition video_base_cmd (src : string) : list string :=
  let '(w, h) := ffprobe_resolution src in
  let scale :=
    if (w =? 0) || (h =? 0) then "scale=1024:-2"
    else if h <=? w then "scale=1024:-2" else "scale=-2:768" in
  [FFMPEG_EXE cfg; "-noautorotate"; "-i"; src; "-vf"; scale;
   "-c:v"; "libx264"; "-profile:v"; "baseline"; "-level"; "3.0";
   "-pix_fmt"; "yuv420p"; "-b:v"; "4000k"; "-maxrate"; "4500k";
   "-bufsize"; "9000k"; "-c:a"; "aac"; "-b:a"; "320k"; "-ar"; "48000";
   "-movflags"; "+faststart"; "-y"].

(** The command [convert_video] runs; [None] when [cmd.index] raises. *)
Definition video_cmd (src dst : string) : option (list string) :=
  let fps := ffprobe_fps src in
  let cmd := video_base_cmd src in
  if (30 <? fps)%float then
    match list_index "-c:v" cmd with
    | Some insert_at =>
        Some (List.app (List.firstn insert_at cmd)
                (List.app ["-r"; "30"]
                   (List.app (List.skipn insert_at cmd) [dst])))
    | None => None
    end
  else Some (List.app cmd [dst]).

Definition convert_video (src dst : string) : M unit :=
  match video_cmd src dst with
  | Some cmd => subprocess_run false cmd
  | None => raise
  end.

(** [for x in l: body(x)] *)
Fixpoint for_each {A} (l : list A) (body : A -> M unit) : M unit :=
  match l with
  | [] => ret tt
  | x :: r => body x ;; for_each r body
  end.

Definition nl : string := String (ascii_of_nat 10) EmptyString.

(** The entries [build_sorted_file_list] appends, in the order of the
    walk; [walked] is what [os.walk(source_folder)] yields. *)
Definition walk_entries (m : gmap string FS.node) (source_folder : string)
    (walked : list (string * list string * list string)) : catalog :=
  List.flat_map
    (fun '(root, _dirs, names) =>
       let rel_root := PosixPath.relpath cwd root source_folder in
       let rel_root := if String.eqb rel_root "." then "" else rel_root in
       List.map
         (fun name =>
            let rel := PosixPath.normpath (PosixPath.join rel_root name) in
            let full := PosixPath.join source_folder rel in
            let size := match FS.getsize m full with
                        | Some n => n
                        | None => 0
                        end in
            (rel, size))
         names)
    walked.

(** [build_sorted_file_list] *)
Definition build_sorted_file_list (m : gmap string FS.node)
    (source_folder : string)
    (walked : list (string * list string * list string)) : catalog :=
  sort_by_size (walk_entries m source_folder walked).

(** [cover_rel_path] *)
Definition cover_rel_path (rel_path : string) : string :=
  fst (PosixPath.splitext rel_path) ++ "_preview.jpg".

Definition copy_cmd (src cover_full : string) : list string :=
  [FFMPEG_EXE cfg; "-y"; "-i"; src; "-map"; "0:v:0"; "-c:v"; "copy"; cover_full].

Definition frame_cmd (src cover_full : string) : list string :=
  [FFMPEG_EXE cfg; "-y"; "-i"; src; "-map"; "0:v:0"; "-frames:v"; "1";
   "-q:v"; "2"; cover_full].

(** The end of [extract_audio_cover], after both attempts failed. *)
Definition cover_cleanup (cover_full : string) : M unit :=
  try_ (do m <- get_files;
        if FS.exists_ m cover_full
           && match FS.getsize m cover_full with
              | Some n => n =? 0
              | None => false
              end
        then remove cover_full else ret tt) ;;
  remove_empty_dirs (PosixPath.dirname cover_full).

(** [extract_audio_cover] from the fallback on. *)
Definition cover_fallback (src cover_full : string) : M bool :=
  try_ (subprocess_run true (frame_cmd src cover_full)) ;;
  do m <- get_files;
  if has_content m cover_full then ret true
  else cover_cleanup cover_full ;; ret false.

(** [extract_audio_cover] up to the first attempt: whether the
    stream copy exited with status 0. *)
Definition cover_first_attempt (src cover_full : string) : M bool :=
  ensure_images_root ;;
  makedirs (PosixPath.dirname cover_full) ;;
  do r <- try_ (subprocess_run true (copy_cmd src cover_full));
  ret (match r with Some _ => true | None => false end).

(** [extract_audio_cover] *)
Definition extract_audio_cover (src cover_full : string) : M bool :=
  do copied <- cover_first_attempt src cover_full;
  do m <- get_files;
  if copied && has_content m cover_full then ret true
  else cover_fallback src cover_full.

(** [generate_audio_covers]; the text of a caught exception is not
    part of the printed line. *)
Definition generate_audio_covers (source_folder : string)
    (sorted_files : catalog) : M unit :=
  match BASE_COVER_DIR cfg with
  | None => ret tt
  | Some cover_dir =>
      print (nl ++ "=== Extracting Audio Previews (Smallest Files First) ===" ++ nl) ;;
      for_each sorted_files
        (fun '(rel, _size) =>
           let ext := ext_of rel in
           if negb (ext_in ext AUDIO_EXT) then ret tt
           else
             let src := PosixPath.join source_folder rel in
             let cover_rel := cover_rel_path rel in
             let cover_full := PosixPath.join cover_dir cover_rel in
             do m <- get_files;
             if has_content m cover_full
             then print ("[SKIP] " ++ rel ++ " [Preview Already Exists]")
             else
               do r <- try_ (do ok <- extract_audio_cover src cover_full;
                             if ok then print ("[PREVIEW] " ++ rel ++ " -> " ++ cover_rel)
                             else print ("[NO PREVIEW] " ++ rel));
               match r with
               | Some _ => ret tt
               | None => print ("[ERROR PREVIEW] " ++ rel ++ ": ")
               end)
  end.

(** [generate_thumbnails_first] *)
Definition generate_thumbnails_first (source_folder : string)
    (sorted_files : catalog) : M unit :=
  match BASE_THUMB_DIR cfg with
  | None => ret tt
  | Some thumb_base =>
      print (nl ++ "=== Generating Thumbnails (Smallest Files First) ===" ++ nl) ;;
      for_each sorted_files
        (fun '(rel, _size) =>
           let src := PosixPath.join source_folder rel in
           let ext := ext_of src in
           if negb (ext_in ext IMAGE_EXT) then ret tt
           else
             let base_no_ext := fst (PosixPath.splitext rel) in
             let thumb_rel := base_no_ext ++ "_thumb.jpg" in
             let thumb_full := PosixPath.join thumb_base thumb_rel in
             let thumb_dir := PosixPath.dirname thumb_full in
             ensure_images_root ;;
             makedirs thumb_dir ;;
             do e <- path_exists thumb_full;
             if e then print ("[SKIP] " ++ thumb_rel ++ " [Preview Already Exists]")
             else
               do r <- try_ (print ("[THUMB] " ++ rel ++ " -> " ++ thumb_rel) ;;
                             convert_thumbnail src thumb_full);
               match r with
               | Some _ => ret tt
               | None =>
                   print ("[ERROR THUMB] " ++ rel ++ ": ") ;;
                   remove_empty_dirs thumb_dir
               end)
  end.

(** [process_file_to_server] *)
Definition process_file_to_server (source_folder rel_path : string) : M unit :=
  match BASE_SERVER_DIR cfg with
  | None => ret tt
  | Some server_dir =>
      if String.eqb (MODE cfg) "nocopytotemp" then ret tt
      else
        let src := PosixPath.join source_folder rel_path in
        let ext := ext_of src in
        let base_no_ext := fst (PosixPath.splitext rel_path) in
        let dst_rel :=
          if ext_in ext AUDIO_EXT then rel_path
          else if ext_in ext VIDEO_EXT then base_no_ext ++ ".mp4"
          else if ext_in ext IMAGE_EXT then base_no_ext ++ ".jpg"
          else rel_path in
        let dst := PosixPath.join server_dir dst_rel in
        let dst_dir := PosixPath.dirname dst in
        ensure_temp_root ;;
        makedirs dst_dir ;;
        if ext_in ext AUDIO_EXT
           || (negb (ext_in ext VIDEO_EXT) && negb (ext_in ext IMAGE_EXT))
        then
          do e <- path_exists dst;
          do same <- (if e
                      then do r <- try_ (do a <- sha256_file src;
                                         do b <- sha256_file dst;
                                         ret (if List.list_eq_dec Byte.byte_eq_dec a b
                                             then true else false));
                           ret (match r with Some true => true | _ => false end)
                      else ret false);
          if same then print ("[SKIP] " ++ rel_path ++ " [Audio Already Exists]")
          else
            print ("[COPY] " ++ rel_path ++ " -> " ++ dst_rel) ;;
            copy_with_progress src dst
        else if ext_in ext VIDEO_EXT then
          do e <- path_exists dst;
          (if e then print ("[OVERWRITE VIDEO] " ++ rel_path ++ " -> " ++ dst_rel)
           else print ("[VIDEO] " ++ rel_path ++ " -> " ++ dst_rel)) ;;
          convert_video src dst
        else if ext_in ext IMAGE_EXT then
          do e <- path_exists dst;
          (if e then print ("[OVERWRITE IMAGE] " ++ rel_path ++ " -> " ++ dst_rel)
           else print ("[IMAGE] " ++ rel_path ++ " -> " ++ dst_rel)) ;;
          convert_image_full src dst
        else ret tt
  end.

(** The mirror loop of [sync_all]. *)
Definition mirror_phase (source_folder : string) (sorted_files : catalog) : M unit :=
  for_each sorted_files
    (fun '(rel, _size) =>
       do r <- try_ (process_file_to_server source_folder rel);
       match r with
       | Some _ => ret tt
       | None => print ("[ERROR] " ++ rel ++ ": ")
       end).

(** [sync_all], without [print_connect_block]. *)
Definition sync_all (source_folder : string)
    (walked : list (string * list string * list string)) : M unit :=
  print (nl ++ "=== Building Sorted File List ===") ;;
  do m <- get_files;
  let sorted_files := build_sorted_file_list m source_folder walked in
  print (nl ++ "Found: " ++ PyStr.str_of_Z (Z.of_nat (List.length sorted_files))
            ++ " Files") ;;
  generate_thumbnails_first source_folder sorted_files ;;
  (if SHOW_AUDIO_META cfg then generate_audio_covers source_folder sorted_files
   else ret tt) ;;
  if String.eqb (MODE cfg) "nocopytotemp"
  then print (nl ++ "=== Sync Finished ===")
  else
    print (nl ++ "=== Syncing Into _server (Smallest Files First) ===" ++ nl) ;;
    mirror_phase source_folder sorted_files ;;
    print (nl ++ "=== Sync Finished ===").

End Worker.

End Sync.

(** ** The player page: paths, links and image navigation *)

Module Player.



(** [parse_qs(query).get(key, [None])[0]] *)
Definition qs_opt (query key : string) : option string :=
  match List.find (fun nv => String.eqb (fst nv) key) (UrlLib.parse_qsl query) with
  | Some (_, v) => Some v
  | None => None
  end.

(** The truth value of an optional string. *)
Definition truthy (o : option string) : bool :=
  match o with
  | Some v => negb (String.eqb v "")
  | None => false
  end.

Definition text_of (o : option string) : string :=
  match o with
  | Some v => v
  | None => "None"
  end.

(** [url += ("&" if "?" in url else "?") + f"page={current_page}"] when
    a page is given. *)
Definition with_page (url : string) (current_page : option string) : string :=
  if truthy current_page
  then url ++ (if PyStr.contains_char "?" url then "&" else "?")
           ++ "page=" ++ text_of current_page
  else url.

(** [file_url] of [send_player] *)
Definition file_url (rel : string) (view_mode current_page : option string) : string :=
  let url := "/" ++ Handler.quote (PyStr.replace rel Handler.backslash "/") in
  let url := if truthy view_mode then url ++ "?mode=" ++ text_of view_mode else url in
  with_page url current_page.

(** [folder_url] of [send_player] *)
Definition folder_url (rel : string) (view_mode current_page : option string) : string :=
  let rel_dir := PosixPath.dirname rel in
  let base_folder_url :=
    if negb (String.eqb rel_dir "") then "/" ++ Handler.quote rel_dir else "/" in
  let url := base_folder_url
             ++ (if truthy view_mode then "?mode=" ++ text_of view_mode else "") in
  with_page url current_page.

(** The image names of the folder of [filepath], sorted; no name when
    the folder cannot be listed. *)
Definition sibling_images (m : gmap string FS.node) (filepath : string) : list string :=
  let items := match FS.listdir m (PosixPath.dirname filepath) with
               | Some names => Handler.sorted names
               | None => []
               end in
  List.filter (fun f => ext_in (ext_of f) IMAGE_EXT) items.

(** [prev_file] and [next_file] of [send_player]. *)
Definition neighbours (images : list string) (basename : string)
  : option string * option string :=
  match Sync.list_index basename images with
  | Some idx =>
      (if (0 <? idx)%nat then List.nth_error images (idx - 1) else None,
       if (idx <? List.length images - 1)%nat
       then List.nth_error images (idx + 1) else None)
  | None => (None, None)
  end.

(** The target of the Previous or Next button for the sibling [file]. *)
Definition nav_url (rel : string) (file : string)
    (view_mode current_page : option string) : string :=
  let rel_dir := PosixPath.dirname rel in
  let target := if negb (String.eqb rel_dir "") then rel_dir ++ "/" ++ file else file in
  "/" ++ Handler.quote target ++ "?view=1"
  ++ (if truthy view_mode then "&mode=" ++ text_of view_mode else "")
  ++ (if truthy current_page then "&page=" ++ text_of current_page else "").

(** The two buttons of an image page: [None] is the disabled button. *)
Definition image_buttons (m : gmap string FS.node) (filepath rel query : string)
  : option string * option string :=
  let view_mode := qs_opt query "mode" in
  let current_page := qs_opt query "page" in
  let '(prev_file, next_file) :=
    neighbours (sibling_images m filepath) (FS.basename filepath) in
  let button (f : option string) :=
    if truthy f then Some (nav_url rel (text_of f) view_mode current_page)
    else None in
  (button prev_file, button next_file).

End Player.

(** ** What [ffprobe] prints *)

Module Probe.

(** The reading of the output in [ffprobe_resolution]: the stripped
    line is split at [x] into exactly two fields, each read by [int];
    a blank line, another number of fields or a field that is no
    integer gives [(0, 0)]. *)
Definition resolution_of_stdout (stdout : string) : Z * Z :=
  let line := PyStr.strip_space stdout in
  if String.eqb line "" then (0, 0)
  else
    match PyStr.split "x" line with
    | [w_str; h_str] =>
        match PyStr.int w_str with
        | Some w =>
            match PyStr.int h_str with
            | Some h => (w, h)
            | None => (0, 0)
            end
        | None => (0, 0)
        end
    | _ => (0, 0)
    end.

(** [ffprobe_resolution] over what the tool prints for a path; [None]
    when the tool cannot be run. *)
Definition probe_resolution (stdout_of : string -> option string)
    (path : string) : option (Z * Z) :=
  option_map resolution_of_stdout (stdout_of path).

End Probe.

(** ** Start-up: the mode table and the roots *)

Module Startup.

(** [MODE_CHOICES]: key, then (base mode, ffmpeg output, audio meta). *)
Definition MODE_CHOICES : list (string * (string * bool * bool)) :=
  [("nocopytotemp", ("nocopytotemp", false, false));
   ("nocopytotemp_meta", ("nocopytotemp", false, true));
   ("ffmpeglog", ("nocopytotemp", true, false));
   ("nocopytotemp_ffmpeglog", ("nocopytotemp", true, false));
   ("nocopytotemp_ffmpeglog_meta", ("nocopytotemp", true, true));
   ("nocopytotemp_ffmpeg", ("nocopytotemp", true, false));
   ("copytotemp", ("copytotemp", false, false));
   ("copytotemp_meta", ("copytotemp", false, true));
   ("copytotemp_ffmpeglog", ("copytotemp", true, false));
   ("copytotemp_ffmpeglog_meta", ("copytotemp", true, true));
   ("copytotemp_ffmpeg", ("copytotemp", true, false))].

(** [MODE_CHOICES[key]], if the key is in the table. *)
Definition mode_choice (key : string) : option (string * bool * bool) :=
  option_map snd (List.find (fun kv => String.eqb (fst kv) key) MODE_CHOICES).

(** [apply_mode_from_key]: the returned flag and the globals after the
    call.  The keys of the table are ASCII, so lowering the ASCII
    letters is enough to decide membership. *)
Definition apply_mode_from_key (c : config) (mode_key : string) : bool * config :=
  let key := PyStr.lower mode_key in
  match mode_choice key with
  | None => (false, c)
  | Some (base_mode, ffmpeg_flag, audio_meta_flag) =>
      (true,
       {| BASE_SERVER_DIR := BASE_SERVER_DIR c;
          BASE_THUMB_DIR := BASE_THUMB_DIR c;
          BASE_COVER_DIR := BASE_COVER_DIR c;
          SOURCE_DIR := SOURCE_DIR c;
          MODE := base_mode;
          SHOW_FFMPEG_OUTPUT := ffmpeg_flag;
          SHOW_AUDIO_META := audio_meta_flag;
          SCRIPT_DIR := SCRIPT_DIR c;
          DATA_DIR := DATA_DIR c;
          FFMPEG_EXE := FFMPEG_EXE c;
          TEMP_ROOT := TEMP_ROOT c |})
  end.

Definition set_server_dir (c : config) (d : option string) : config :=
  {| BASE_SERVER_DIR := d;
     BASE_THUMB_DIR := BASE_THUMB_DIR c;
     BASE_COVER_DIR := BASE_COVER_DIR c;
     SOURCE_DIR := SOURCE_DIR c;
     MODE := MODE c;
     SHOW_FFMPEG_OUTPUT := SHOW_FFMPEG_OUTPUT c;
     SHOW_AUDIO_META := SHOW_AUDIO_META c;
     SCRIPT_DIR := SCRIPT_DIR c;
     DATA_DIR := DATA_DIR c;
     FFMPEG_EXE := FFMPEG_EXE c;
     TEMP_ROOT := TEMP_ROOT c |}.

Definition set_source_dir (c : config) (d : option string) : config :=
  {| BASE_SERVER_DIR := BASE_SERVER_DIR c;
     BASE_THUMB_DIR := BASE_THUMB_DIR c;
     BASE_COVER_DIR := BASE_COVER_DIR c;
     SOURCE_DIR := d;
     MODE := MODE c;
     SHOW_FFMPEG_OUTPUT := SHOW_FFMPEG_OUTPUT c;
     SHOW_AUDIO_META := SHOW_AUDIO_META c;
     SCRIPT_DIR := SCRIPT_DIR c;
     DATA_DIR := DATA_DIR c;
     FFMPEG_EXE := FFMPEG_EXE c;
     TEMP_ROOT := TEMP_ROOT c |}.

(** [ensure_dirs] *)
Definition ensure_dirs (c : config) : config :=
  let temp_root := TEMP_ROOT c in
  let images_root := PosixPath.join temp_root "_images" in
  {| BASE_SERVER_DIR :=
       if String.eqb (MODE c) "nocopytotemp" then None
       else Some (PosixPath.join temp_root "_server");
     BASE_THUMB_DIR := Some (PosixPath.join images_root "_thumbnails");
     BASE_COVER_DIR := Some (PosixPath.join images_root "_preview");
     SOURCE_DIR := SOURCE_DIR c;
     MODE := MODE c;
     SHOW_FFMPEG_OUTPUT := SHOW_FFMPEG_OUTPUT c;
     SHOW_AUDIO_META := SHOW_AUDIO_META c;
     SCRIPT_DIR := SCRIPT_DIR c;
     DATA_DIR := DATA_DIR c;
     FFMPEG_EXE := FFMPEG_EXE c;
     TEMP_ROOT := TEMP_ROOT c |}.

(** How [main] ends before the synchronisation and the server start. *)
Inductive launch :=
| Interactive                              (* the windows are opened *)
| Refused (line : string)                  (* a line is printed, [main] returns *)
| Serving (c : config) (port : Z).         (* the globals the server starts with *)

(** [main] when the mode, the port and the folder come from the
    environment ([IPAD_SERVER_MODE], [IPAD_SERVER_PORT],
    [IPAD_SERVER_FOLDER]); the banner lines are left out. *)
Definition main_from_env (c : config)
    (env_mode env_port env_folder : option string) : launch :=
  if Player.truthy env_mode && Player.truthy env_port && Player.truthy env_folder
  then
    let '(known, c) := apply_mode_from_key c (Player.text_of env_mode) in
    if negb known
    then Refused ("Unsupported Mode From Env: " ++ Player.text_of env_mode)
    else
      match PyStr.int (Player.text_of env_port) with
      | None => Refused ("Invalid Port From Env: " ++ Player.text_of env_port)
      | Some port =>
          let c := set_source_dir c env_folder in
          let c := ensure_dirs c in
          let c := if String.eqb (MODE c) "nocopytotemp"
                   then set_server_dir c (SOURCE_DIR c) else c in
          Serving c port
      end
  else Interactive.

End Startup.

(** ** Sample trees and requests used by the examples *)

Module Sample.

Definition cfg : config := {|
  BASE_SERVER_DIR := Some "/srv/media";
  BASE_THUMB_DIR := Some "/app/_temp/_images/_thumbnails";
  BASE_COVER_DIR := Some "/app/_temp/_images/_preview";
  SOURCE_DIR := Some "/srv/media";
  MODE := "nocopytotemp";
  SHOW_FFMPEG_OUTPUT := false;
  SHOW_AUDIO_META := false;
  SCRIPT_DIR := "/app";
  DATA_DIR := "/app/data";
  FFMPEG_EXE := "ffmpeg";
  TEMP_ROOT := "/app/_temp"
|}.

Definition secret : list Byte.byte := [Byte.x73; Byte.x33; Byte.x63; Byte.x72; Byte.x33; Byte.x74].

Definition hello : list Byte.byte := [Byte.x68; Byte.x69].

(** A served folder [/srv/media] next to a private one whose name
    extends it. *)
Definition tree : gmap string FS.node :=
  list_to_map
    [("/srv", FS.Dir);
     ("/srv/media", FS.Dir);
     ("/srv/media/hello.txt", FS.File hello);
     ("/srv/media_private", FS.Dir);
     ("/srv/media_private/secret.txt", FS.File secret);
     ("/app", FS.Dir);
     ("/app/_temp", FS.Dir)].

Definition get (path : string) : Handler.request :=
  {| Handler.path_only := path; Handler.query := ""; Handler.range_header := None |}.


(** A folder [/srv/album] with 23 pictures. *)
Definition album_names : list string :=
  ["p01.jpg"; "p02.jpg"; "p03.jpg"; "p04.jpg"; "p05.jpg"; "p06.jpg";
   "p07.jpg"; "p08.jpg"; "p09.jpg"; "p10.jpg"; "p11.jpg"; "p12.jpg";
   "p13.jpg"; "p14.jpg"; "p15.jpg"; "p16.jpg"; "p17.jpg"; "p18.jpg";
   "p19.jpg"; "p20.jpg"; "p21.jpg"; "p22.jpg"; "p23.jpg"].

Definition album : gmap string FS.node :=
  list_to_map
    (("/srv", FS.Dir) :: ("/srv/album", FS.Dir)
     :: List.map (fun n => ("/srv/album/" ++ n, FS.File hello)) album_names).

(** A clip whose probes report 1920x1080 at 60 frames per second. *)
Definition probe_resolution (path : string) : option (Z * Z) := Some (1920, 1080).
Definition probe_fps (path : string) : option float := Some 60%float.

(** A tool that starts, writes one byte to its destination and exits
    with status 0. *)
Definition tool_ok (cmd : list string) (m : gmap string FS.node) : Sync.run_result :=
  {| Sync.launched := true; Sync.returncode := 0; Sync.effect := Sync.Wrote [Byte.x01] |}.

(** A tool that starts, leaves nothing and exits with status 1. *)
Definition tool_fails (cmd : list string) (m : gmap string FS.node) : Sync.run_result :=
  {| Sync.launched := true; Sync.returncode := 1; Sync.effect := Sync.Untouched |}.

(** The configuration of mirror mode. *)
Definition mirror_cfg : config := {|
  BASE_SERVER_DIR := Some "/app/_temp/_server";
  BASE_THUMB_DIR := Some "/app/_temp/_images/_thumbnails";
  BASE_COVER_DIR := Some "/app/_temp/_images/_preview";
  SOURCE_DIR := Some "/srv/media";
  MODE := "copytotemp";
  SHOW_FFMPEG_OUTPUT := false;
  SHOW_AUDIO_META := true;
  SCRIPT_DIR := "/app";
  DATA_DIR := "/app/data";
  FFMPEG_EXE := "ffmpeg";
  TEMP_ROOT := "/app/_temp"
|}.

(** The private tree after an earlier run: a converted clip, and a
    thumbnail and a cover preview of zero bytes. *)
Definition cache : gmap string FS.node :=
  list_to_map
    [("/app", FS.Dir);
     ("/app/_temp", FS.Dir);
     ("/app/_temp/_server", FS.Dir);
     ("/app/_temp/_server/clip.mp4", FS.File hello);
     ("/app/_temp/_images", FS.Dir);
     ("/app/_temp/_images/_thumbnails", FS.Dir);
     ("/app/_temp/_images/_thumbnails/pic_thumb.jpg", FS.File []);
     ("/app/_temp/_images/_preview", FS.Dir);
     ("/app/_temp/_images/_preview/song_preview.jpg", FS.File []);
     ("/srv", FS.Dir);
     ("/srv/media", FS.Dir);
     ("/srv/media/clip.mov", FS.File secret);
     ("/srv/media/pic.jpg", FS.File hello);
     ("/srv/media/song.mp3", FS.File hello)].

Definition start : Sync.world := {| Sync.files := cache; Sync.trace := [] |}.

(** A first run: the private tree holds the temp root only. *)
Definition bare : gmap string FS.node :=
  list_to_map
    [("/", FS.Dir);
     ("/app", FS.Dir);
     ("/app/_temp", FS.Dir);
     ("/srv", FS.Dir);
     ("/srv/media", FS.Dir);
     ("/srv/media/album", FS.Dir);
     ("/srv/media/album/song.mp3", FS.File hello)].

Definition bare_start : Sync.world := {| Sync.files := bare; Sync.trace := [] |}.

End Sample.

(** ** Vocabulary of the properties *)

(** [p] is [root] or lies below it, component-wise. *)
Definition inside_root (root p : string) : bool :=
  String.eqb p root || PyStr.startswith p (root ++ "/").

(** The routes [do_GET] tries before the server tree. *)
Definition reserved_route (p : string) : bool :=
  String.eqb p "/folder.png"
  || (PyStr.startswith p "/thumbnail_" && PyStr.endswith p ".png")
  || String.eqb p "/icon.ico"
  || String.eqb p "/favicon.ico"
  || String.eqb p "/apple-touch-icon.png" || String.eqb p "/favicon.png"
  || PyStr.startswith p "/__thumbs__/"
  || PyStr.startswith p "/__preview__/".

(** The relative path [do_GET] derives from a request path. *)
Definition request_rel (p : string) : string :=
  let rel := UrlLib.unquote p in
  if PyStr.startswith rel "/" then PyStr.drop 1 rel else rel.

(** A string of ASCII digits, and its decimal value after [acc]. *)
Fixpoint digits_only (s : string) : bool :=
  match s with
  | EmptyString => true
  | String c r =>
      match PyStr.digit_of c with
      | Some _ => digits_only r
      | None => false
      end
  end.

Fixpoint decimal_from (acc : Z) (s : string) : Z :=
  match s with
  | EmptyString => acc
  | String c r =>
      match PyStr.digit_of c with
      | Some d => decimal_from (10 * acc + d) r
      | None => acc
      end
  end.

Definition decimal (s : string) : Z := decimal_from 0 s.



(** The page a paged listing ends up showing for the value [page_param]
    of the [page] parameter, in a folder with [total] pages. *)
Definition page_for (page_param : string) (total : Z) : Z :=
  match PyStr.int page_param with
  | None => 1
  | Some n => if n <? 1 then 1 else if total <? n then total else n
  end.




(** The arguments of the video command after the scale filter, from the
    codec argument to [-y]. *)
Definition video_codec_args : list string :=
  ["-c:v"; "libx264"; "-profile:v"; "baseline"; "-level"; "3.0";
   "-pix_fmt"; "yuv420p"; "-b:v"; "4000k"; "-maxrate"; "4500k";
   "-bufsize"; "9000k"; "-c:a"; "aac"; "-b:a"; "320k"; "-ar"; "48000";
   "-movflags"; "+faststart"; "-y"].

(** The line [process_file_to_server] prints before a conversion. *)
Definition convert_line (dst_exists : bool) (kind rel_path dst_rel : string) : string :=
  (if dst_exists then "[OVERWRITE " ++ kind ++ "] " else "[" ++ kind ++ "] ")
  ++ rel_path ++ " -> " ++ dst_rel.

(** [p] starts with [stop] and is not [stop]: the test that lets the
    loop of [remove_empty_dirs] go on. *)
Definition strictly_inside (stop p : string) : bool :=
  PyStr.startswith p stop && negb (String.eqb p stop).

(** A directory without entries. *)
Definition empty_dir (m : gmap string FS.node) (p : string) : bool :=
  FS.isdir m p && negb (Sync.has_children m p).

(** Every entry but the root lies in a directory of the tree. *)
Definition well_formed (m : gmap string FS.node) : Prop :=
  forall p n, m !! p = Some n -> PosixPath.dirname p <> p ->
              FS.isdir m (PosixPath.dirname p) = true.

(** The [k]-th folder above [p]. *)
Fixpoint ancestor (k : nat) (p : string) : string :=
  match k with
  | O => p
  | S j => PosixPath.dirname (ancestor j p)
  end.



(** The effect of the loop of [remove_empty_dirs] on the tree: only
    folders strictly inside [stop] go away. *)
Definition swept (stop : string) (m m' : gmap string FS.node) : Prop :=
  forall p, m' !! p = m !! p
            \/ (m' !! p = None /\ m !! p = Some FS.Dir
                /\ strictly_inside stop p = true).

(** [c] keeps the invariant [I] of the tree and prints or runs nothing. *)
Definition keeps (I : gmap string FS.node -> Prop) {A} (c : Sync.M A) : Prop :=
  forall w r w', c w = (r, w') -> I (Sync.files w) ->
                 I (Sync.files w') /\ Sync.trace w' = Sync.trace w.


(** [c] returns or raises: the fuel of the model was enough. *)
Definition total {A} (c : Sync.M A) : Prop :=
  forall w, fst (c w) <> Sync.OutOfFuel.

(** The rows of a listing that stand for an entry. *)
Definition is_placeholder (r : Handler.row) : bool :=
  match r with
  | Handler.PlaceholderRow => true
  | _ => false
  end.

Definition real_rows (l : list Handler.row) : list Handler.row :=
  List.filter (fun r => negb (is_placeholder r)) l.


(** The last element of a list, if any. *)
Definition last_opt {A} (l : list A) : option A := List.head (List.rev l).

(** White space only. *)
Fixpoint blank (s : string) : bool :=
  match s with
  | EmptyString => true
  | String c r => PyStr.is_space c && blank r
  end.

(** The commands run so far, in order. *)
Definition commands (t : list Sync.event) : list (list string) :=
  List.flat_map (fun e => match e with
                          | Sync.Ran cmd => [cmd]
                          | Sync.Printed _ => []
                          end) t.

(** Where the thumbnail of the picture [rel] is kept. *)
Definition thumb_path (thumb_base rel : string) : string :=
  PosixPath.join thumb_base (fst (PosixPath.splitext rel) ++ "_thumb.jpg").

(** The entry is a picture whose thumbnail is missing. *)
Definition needs_thumbnail (m : gmap string FS.node)
    (thumb_base source_folder : string) (entry : string * Z) : bool :=
  ext_in (ext_of (PosixPath.join source_folder (fst entry))) IMAGE_EXT
  && negb (FS.exists_ m (thumb_path thumb_base (fst entry))).

Definition thumbnails_present (m : gmap string FS.node)
    (thumb_base source_folder : string) (sorted_files : Sync.catalog) : bool :=
  List.forallb (fun e => negb (needs_thumbnail m thumb_base source_folder e))
    sorted_files.

(** From [m] to [m'] nothing changed but folders that were created. *)
Definition only_new_folders (m m' : gmap string FS.node) : Prop :=
  forall p, m' !! p = m !! p \/ (m !! p = None /\ m' !! p = Some FS.Dir).

(** [c] keeps the invariant [I] of the tree and runs no command. *)
Definition calm (I : gmap string FS.node -> Prop) {A} (c : Sync.M A) : Prop :=
  forall w r w', c w = (r, w') -> I (Sync.files w) ->
                 I (Sync.files w')
                 /\ commands (Sync.trace w') = commands (Sync.trace w).

(** The invariant of a thumbnail pass that started on [m0]: the
    thumbnails are there, and the tree differs from [m0] by new folders
    only. *)
Definition thumbnails_in_place (thumb_base source_folder : string)
    (sorted_files : Sync.catalog) (m0 m : gmap string FS.node) : Prop :=
  thumbnails_present m thumb_base source_folder sorted_files = true
  /\ only_new_folders m0 m.

(** * Properties *)

Example int_plain : PyStr.int "199" = Some 199.
Proof. reflexivity. Qed.
Example int_spaces_sign : PyStr.int " +1_000 " = Some 1000.
Proof. reflexivity. Qed.
Example int_bad_underscore : PyStr.int "1__0" = None.
Proof. reflexivity. Qed.
Example int_empty : PyStr.int "" = None.
Proof. reflexivity. Qed.
Example split_range : PyStr.split "-" "100-199" = ["100"; "199"].
Proof. reflexivity. Qed.
Example replace_bytes : PyStr.replace "bytes=0-5" "bytes=" "" = "0-5".
Proof. reflexivity. Qed.
Example str_of_Z_neg : PyStr.str_of_Z (-399) = "-399".
Proof. reflexivity. Qed.
Example normpath_dotdot :
  PosixPath.normpath "/srv/media/../media_private/secret.txt"
  = "/srv/media_private/secret.txt".
Proof. reflexivity. Qed.
Example normpath_root : PosixPath.normpath "/srv/media/../../.." = "/".
Proof. reflexivity. Qed.
Example splitext_jpg : PosixPath.splitext "a/b/IMG.1.JPG" = ("a/b/IMG.1", ".JPG").
Proof. reflexivity. Qed.
Example splitext_hidden : PosixPath.splitext "a/.bashrc" = ("a/.bashrc", "").
Proof. reflexivity. Qed.
Example dirname_ex : PosixPath.dirname "/t/_images/_preview/x/a_preview.jpg"
  = "/t/_images/_preview/x".
Proof. reflexivity. Qed.
Example relpath_ex : PosixPath.relpath "/" "/src/a/b" "/src" = "a/b".
Proof. reflexivity. Qed.
Example relpath_top : PosixPath.relpath "/" "/src" "/src" = ".".
Proof. reflexivity. Qed.
Example unquote_ex : UrlLib.unquote "/%2e%2e/a%20b%zz" = "/../a b%zz".
Proof. reflexivity. Qed.
Example qs_ex : UrlLib.qs_first "mode=paged&page=&page=3" "page" "1" = "3".
Proof. reflexivity. Qed.

Example listing_root :
  exists pg, Handler.do_GET Sample.cfg Sample.tree (Sample.get "/")
             = Handler.ListingPage "/srv/media" "" pg.
Proof. vm_compute. eexists. reflexivity. Qed.

Example get_hello :
  Handler.do_GET Sample.cfg Sample.tree (Sample.get "/hello.txt")
  = Handler.Sent 200 [("Content-Type", "application/octet-stream");
                      ("Content-Length", "2"); ("Accept-Ranges", "bytes")]
                 (Some Sample.hello).
Proof. vm_compute. reflexivity. Qed.

Example traversal_above_root :
  exists pg, Handler.do_GET Sample.cfg Sample.tree (Sample.get "/../../etc/passwd")
             = Handler.ListingPage "/srv/media" "" pg.
Proof. vm_compute. eexists. reflexivity. Qed.

(** ** Path containment in [do_GET] *)

Section Containment.

Import Handler.

Lemma startswith_split (s pre : string) :
  PyStr.startswith s pre = true -> exists r, s = pre ++ r.
Proof.
  revert s; induction pre as [|c pre IH]; intros s H.
  - exists s. reflexivity.
  - destruct s as [|d s]; simpl in H; [discriminate|].
    apply andb_prop in H as [Hc Hs].
    apply Ascii.eqb_eq in Hc. subst d.
    destruct (IH s Hs) as [r ->]. exists r. reflexivity.
Qed.

(** C1 (code bug): with the served folder [/srv/media], the request
    [/../media_private/secret.txt] resolves to a file of the sibling
    folder [/srv/media_private], which is not inside the root; the
    containment test is a string prefix test, lets it pass, and the
    handler answers 200 with the bytes of that file instead of the
    listing of the root. *)
Theorem do_GET_serves_prefix_sibling :
  let root := "/srv/media" in
  let req := Sample.get "/../media_private/secret.txt" in
  let full := fst (resolve_under root (request_rel (path_only req))) in
  full = "/srv/media_private/secret.txt"
  /\ inside_root root full = false
  /\ do_GET Sample.cfg Sample.tree req
     = Sent 200 [("Content-Type", "application/octet-stream");
                 ("Content-Length", "6"); ("Accept-Ranges", "bytes")]
            (Some Sample.secret).
Proof. vm_compute. repeat split. Qed.

(** C6, as stated, fails: a request under [/__thumbs__/] whose path
    leaves the thumbnail root is answered with the error status 403, not
    with a listing. *)
Lemma thumbs_traversal_is_forbidden :
  snd (resolve_under "/app/_temp/_images/_thumbnails"
         (UrlLib.unquote "../../../secret.jpg")) = false
  /\ do_GET Sample.cfg Sample.tree (Sample.get "/__thumbs__/../../../secret.jpg")
     = SendError 403 "Forbidden".
Proof. vm_compute. split; reflexivity. Qed.

(** Decides the literal comparisons of the dispatch chain on a path
    whose first characters are known. *)
Ltac settle_route :=
  repeat match goal with
  | |- context [String.eqb ?a ?b] =>
      let H := fresh in
      assert (H : String.eqb a b = false) by reflexivity; rewrite H; clear H
  | |- context [PyStr.startswith ?a ?b] =>
      let H := fresh in
      first [ assert (H : PyStr.startswith a b = false) by reflexivity
            | assert (H : PyStr.startswith a b = true) by reflexivity ];
      rewrite H; clear H
  end;
  cbn [andb orb].

Lemma derivative_outside (m : gmap string FS.node) (root : string) (n : nat)
    (e1 e2 p : string) :
  snd (resolve_under root (UrlLib.unquote (PyStr.drop n p))) = false ->
  serve_derivative m (Some root) n e1 e2 p = SendError 403 "Forbidden".
Proof.
  intros H. unfold serve_derivative.
  destruct (resolve_under root _) as [full inside]. simpl in H. subst inside.
  reflexivity.
Qed.

Lemma thumbs_route (cfg : config) (m : gmap string FS.node) (req : request)
    (base : string) :
  BASE_SERVER_DIR cfg = Some base ->
  PyStr.startswith (path_only req) "/__thumbs__/" = true ->
  do_GET cfg m req
  = serve_derivative m (BASE_THUMB_DIR cfg) (String.length "/__thumbs__/")
      "Thumbnails not configured" "Thumbnail not found" (path_only req).
Proof.
  intros Hb Hp. unfold do_GET. rewrite Hb.
  destruct (startswith_split _ _ Hp) as [r Hr].
  rewrite Hr. settle_route. reflexivity.
Qed.

Lemma preview_route (cfg : config) (m : gmap string FS.node) (req : request)
    (base : string) :
  BASE_SERVER_DIR cfg = Some base ->
  PyStr.startswith (path_only req) "/__preview__/" = true ->
  do_GET cfg m req
  = serve_derivative m (BASE_COVER_DIR cfg) (String.length "/__preview__/")
      "Previews not configured" "Preview not found" (path_only req).
Proof.
  intros Hb Hp. unfold do_GET. rewrite Hb.
  destruct (startswith_split _ _ Hp) as [r Hr].
  rewrite Hr. settle_route. reflexivity.
Qed.

Lemma plain_route (cfg : config) (m : gmap string FS.node) (req : request)
    (base : string) :
  BASE_SERVER_DIR cfg = Some base ->
  reserved_route (path_only req) = false ->
  do_GET cfg m req
  = let rel := request_rel (path_only req) in
    let '(full, inside) := resolve_under base rel in
    let '(full, rel) := if negb inside then (PosixPath.normpath base, "")
                        else (full, rel) in
    if FS.isdir m full then send_dir m (query req) full rel
    else if PyStr.contains "view=1" (query req) then send_player m full rel
    else send_file m (range_header req) full.
Proof.
  intros Hb Hr. unfold do_GET. rewrite Hb.
  unfold reserved_route in Hr.
  repeat (apply orb_false_elim in Hr; destruct Hr as [Hr ?]).
  repeat match goal with H : _ = false |- _ => rewrite H; clear H end.
  reflexivity.
Qed.

(** C6 (amended): a request of the server tree whose normalised path
    does not start with the normalised root is answered with the listing
    of the root, and a request under [/__thumbs__/] or [/__preview__/]
    whose normalised path does not start with its root is answered with
    403 Forbidden. *)
Theorem traversal_fallback_per_root (cfg : config) (m : gmap string FS.node)
    (base : string) (Hbase : BASE_SERVER_DIR cfg = Some base) :
  (forall req,
      reserved_route (path_only req) = false ->
      snd (resolve_under base (request_rel (path_only req))) = false ->
      FS.isdir m (PosixPath.normpath base) = true ->
      exists names,
        FS.listdir m (PosixPath.normpath base) = Some names
        /\ do_GET cfg m req = send_dir m (query req) (PosixPath.normpath base) ""
        /\ exists pg, do_GET cfg m req
                      = ListingPage (PosixPath.normpath base) "" pg)
  /\ (forall req troot,
         BASE_THUMB_DIR cfg = Some troot ->
         PyStr.startswith (path_only req) "/__thumbs__/" = true ->
         snd (resolve_under troot
                (UrlLib.unquote (PyStr.drop 12 (path_only req)))) = false ->
         do_GET cfg m req = SendError 403 "Forbidden")
  /\ (forall req croot,
         BASE_COVER_DIR cfg = Some croot ->
         PyStr.startswith (path_only req) "/__preview__/" = true ->
         snd (resolve_under croot
                (UrlLib.unquote (PyStr.drop 13 (path_only req)))) = false ->
         do_GET cfg m req = SendError 403 "Forbidden").
Proof.
  split; [|split].
  - intros req Hres Hout Hdir.
    rewrite (plain_route cfg m req base Hbase Hres). cbv zeta.
    destruct (resolve_under base _) as [full inside]. simpl in Hout. subst inside.
    simpl negb. cbv iota beta. rewrite Hdir.
    unfold send_dir, FS.listdir. rewrite Hdir.
    eexists. split; [reflexivity|]. split; [reflexivity|].
    eexists. reflexivity.
  - intros req troot Ht Hp Hout.
    rewrite (thumbs_route cfg m req base Hbase Hp), Ht.
    apply derivative_outside. exact Hout.
  - intros req croot Hc Hp Hout.
    rewrite (preview_route cfg m req base Hbase Hp), Hc.
    apply derivative_outside. exact Hout.
Qed.

Lemma traversal_fallback_per_root_witness :
  (exists pg, do_GET Sample.cfg Sample.tree (Sample.get "/../../etc/passwd")
              = ListingPage "/srv/media" "" pg)
  /\ do_GET Sample.cfg Sample.tree (Sample.get "/__thumbs__/../../../secret.jpg")
     = SendError 403 "Forbidden"
  /\ do_GET Sample.cfg Sample.tree (Sample.get "/__preview__/%2e%2e/%2e%2e/x.jpg")
     = SendError 403 "Forbidden".
Proof.
  destruct (traversal_fallback_per_root Sample.cfg Sample.tree "/srv/media" eq_refl)
    as (Hserver & Hthumbs & Hpreview).
  split; [|split].
  - destruct (Hserver (Sample.get "/../../etc/passwd")) as (names & _ & _ & Hpg).
    + reflexivity.
    + reflexivity.
    + vm_compute. reflexivity.
    + exact Hpg.
  - apply (Hthumbs _ "/app/_temp/_images/_thumbnails"); reflexivity.
  - apply (Hpreview _ "/app/_temp/_images/_preview"); reflexivity.
Defined.

End Containment.

(** ** [int], [split] and [replace] on digit strings *)

Section DigitStrings.

Lemma digit_of_range (c : ascii) (d : Z) :
  PyStr.digit_of c = Some d ->
  (48 <= nat_of_ascii c <= 57)%nat /\ 0 <= d <= 9.
Proof.
  unfold PyStr.digit_of. intros H.
  destruct (48 <=? nat_of_ascii c)%nat eqn:E1;
    destruct (nat_of_ascii c <=? 57)%nat eqn:E2; simpl in H; try discriminate.
  apply Nat.leb_le in E1, E2. inversion H; subst. lia.
Qed.

Lemma digit_not_space (c : ascii) (d : Z) :
  PyStr.digit_of c = Some d -> PyStr.is_space c = false.
Proof.
  intros H. apply digit_of_range in H as [[H1 H2] _].
  unfold PyStr.is_space.
  repeat match goal with
  | |- context [(?a <=? ?b)%nat] => destruct (Nat.leb_spec a b)
  | |- context [(?a =? ?b)%nat] => destruct (Nat.eqb_spec a b)
  end; simpl; try reflexivity; lia.
Qed.

Lemma digit_not_char (c k : ascii) (d : Z) :
  PyStr.digit_of c = Some d -> PyStr.digit_of k = None -> Ascii.eqb c k = false.
Proof.
  intros H Hk. destruct (Ascii.eqb c k) eqn:E; [|reflexivity].
  apply Ascii.eqb_eq in E. subst k. congruence.
Qed.

Lemma digits_only_cons (c : ascii) (r : string) :
  digits_only (String c r) = true ->
  exists d, PyStr.digit_of c = Some d /\ digits_only r = true.
Proof.
  simpl. destruct (PyStr.digit_of c) as [d|]; [|discriminate].
  intros H. exists d. split; [reflexivity|exact H].
Qed.

Lemma digits_only_no_char (k : ascii) (s : string) :
  PyStr.digit_of k = None -> digits_only s = true ->
  PyStr.contains_char k s = false.
Proof.
  intros Hk. induction s as [|c r IH]; intros H; [reflexivity|].
  apply digits_only_cons in H as (d & Hd & Hr).
  simpl. rewrite (IH Hr), orb_false_r.
  rewrite Ascii.eqb_sym. exact (digit_not_char c k d Hd Hk).
Qed.

Lemma lstrip_space_digits (s : string) :
  digits_only s = true -> PyStr.lstrip_space s = s.
Proof.
  destruct s as [|c r]; [reflexivity|]. intros H.
  apply digits_only_cons in H as (d & Hd & _).
  simpl. rewrite (digit_not_space c d Hd). reflexivity.
Qed.

Lemma rstrip_space_digits (s : string) :
  digits_only s = true -> PyStr.rstrip_space s = s.
Proof.
  induction s as [|c r IH]; [reflexivity|]. intros H.
  apply digits_only_cons in H as (d & Hd & Hr).
  simpl. rewrite (IH Hr), (digit_not_space c d Hd).
  destruct r; reflexivity.
Qed.

Lemma digits_after_digit (s : string) (acc : Z) :
  digits_only s = true -> PyStr.digits acc true s = Some (decimal_from acc s).
Proof.
  revert acc. induction s as [|c r IH]; intros acc H; [reflexivity|].
  apply digits_only_cons in H as (d & Hd & Hr).
  simpl. rewrite Hd. apply IH. exact Hr.
Qed.

Lemma digits_nonempty (s : string) (acc : Z) :
  digits_only s = true -> s <> "" ->
  PyStr.digits acc false s = Some (decimal_from acc s).
Proof.
  destruct s as [|c r]; [congruence|]. intros H _.
  apply digits_only_cons in H as (d & Hd & Hr).
  simpl. rewrite Hd. apply digits_after_digit. exact Hr.
Qed.

Lemma decimal_from_nonneg (s : string) (acc : Z) :
  0 <= acc -> 0 <= decimal_from acc s.
Proof.
  revert acc. induction s as [|c r IH]; intros acc Hacc; simpl; [exact Hacc|].
  destruct (PyStr.digit_of c) as [d|] eqn:Hd; [|exact Hacc].
  apply IH. apply digit_of_range in Hd. lia.
Qed.

(** [int] reads a non-empty digit string as its decimal value. *)
Lemma int_digits (s : string) :
  digits_only s = true -> s <> "" -> PyStr.int s = Some (decimal s).
Proof.
  intros H Hne. unfold PyStr.int, PyStr.strip_space.
  rewrite (lstrip_space_digits s H), (rstrip_space_digits s H).
  destruct s as [|c r]; [congruence|].
  destruct (digits_only_cons c r H) as (d & Hd & Hr).
  rewrite (digit_not_char c "-"%char d Hd eq_refl).
  rewrite (digit_not_char c "+"%char d Hd eq_refl).
  apply digits_nonempty; [exact H|discriminate].
Qed.

Lemma split_no_sep (sep : ascii) (s : string) :
  PyStr.contains_char sep s = false -> PyStr.split sep s = [s].
Proof.
  induction s as [|c r IH]; [reflexivity|]. simpl. intros H.
  apply orb_false_elim in H as [Hc Hr].
  rewrite Ascii.eqb_sym in Hc. rewrite Hc, (IH Hr). reflexivity.
Qed.

Lemma split_app_sep (sep : ascii) (a b : string) :
  PyStr.contains_char sep a = false ->
  PyStr.split sep (a ++ String sep b) = a :: PyStr.split sep b.
Proof.
  induction a as [|c r IH]; simpl; intros H.
  - rewrite Ascii.eqb_refl. reflexivity.
  - apply orb_false_elim in H as [Hc Hr].
    rewrite Ascii.eqb_sym in Hc. rewrite Hc, (IH Hr). reflexivity.
Qed.




End DigitStrings.

(** ** Range requests in [send_file] *)

Section RangeStreamer.

Import Handler.



Lemma send_file_ranged (m : gmap string FS.node) (h filepath : string)
    (content : list Byte.byte) :
  m !! filepath = Some (FS.File content) -> h <> "" ->
  send_file m (Some h) filepath
  = let n := Z.of_nat (List.length content) in
    let '(start, end_) :=
      match parse_range h n with Some se => se | None => (0, n - 1) end in
    Sent 206
      [("Content-Type", mime_file (ext_of filepath));
       ("Accept-Ranges", "bytes");
       ("Content-Range",
        "bytes " ++ PyStr.str_of_Z start ++ "-" ++ PyStr.str_of_Z end_
                 ++ "/" ++ PyStr.str_of_Z n);
       ("Content-Length", PyStr.str_of_Z (end_ - start + 1))]
      (FS.read_at m filepath start (end_ - start + 1)).
Proof.
  intros Hm Hh. unfold send_file, FS.exists_, FS.getsize. rewrite Hm.
  cbn [negb].
  destruct (String.eqb_spec h "") as [->|_]; [congruence|].
  cbn [negb]. cbv zeta.
  destruct (parse_range h _) as [[start end_]|]; reflexivity.
Qed.

Lemma read_at_file (m : gmap string FS.node) (p : string)
    (content : list Byte.byte) (start n : Z) :
  m !! p = Some (FS.File content) -> 0 <= start ->
  FS.read_at m p start n
  = Some (if n <? 0 then List.skipn (Z.to_nat start) content
          else List.firstn (Z.to_nat n) (List.skipn (Z.to_nat start) content)).
Proof.
  intros Hm Hs. unfold FS.read_at. rewrite Hm.
  destruct (Z.ltb_spec start 0); [lia|]. reflexivity.
Qed.

(** C4, as stated, fails: with the header [bytes=abc], which does not
    parse, the answer has status 206 and a [Content-Range] header, while
    the same request without the header is answered with status 200. *)
Lemma unparsable_range_not_as_absent :
  parse_range "bytes=abc" 2 = None
  /\ send_file Sample.tree (Some "bytes=abc") "/srv/media/hello.txt"
     = Sent 206 [("Content-Type", "application/octet-stream");
                 ("Accept-Ranges", "bytes");
                 ("Content-Range", "bytes 0-1/2");
                 ("Content-Length", "2")]
            (Some Sample.hello)
  /\ send_file Sample.tree None "/srv/media/hello.txt"
     = Sent 200 [("Content-Type", "application/octet-stream");
                 ("Content-Length", "2");
                 ("Accept-Ranges", "bytes")]
            (Some Sample.hello).
Proof. vm_compute. repeat split. Qed.

(** C4 (amended): a non-empty [Range] header that fails to parse is
    served as the range covering the whole file: status 206,
    [Accept-Ranges: bytes], [Content-Range: bytes 0-(N-1)/N] and the full
    file as body. *)
Theorem unparsable_range_whole_file (m : gmap string FS.node)
    (h filepath : string) (content : list Byte.byte) :
  m !! filepath = Some (FS.File content) ->
  h <> "" ->
  parse_range h (Z.of_nat (List.length content)) = None ->
  send_file m (Some h) filepath
  = let n := Z.of_nat (List.length content) in
    Sent 206
      [("Content-Type", mime_file (ext_of filepath));
       ("Accept-Ranges", "bytes");
       ("Content-Range",
        "bytes 0-" ++ PyStr.str_of_Z (n - 1) ++ "/" ++ PyStr.str_of_Z n);
       ("Content-Length", PyStr.str_of_Z n)]
      (Some content).
Proof.
  intros Hm Hh Hp. rewrite (send_file_ranged m h filepath content Hm Hh).
  cbv zeta. rewrite Hp.
  rewrite (read_at_file m filepath content 0 _ Hm (Z.le_refl 0)).
  replace (Z.of_nat (List.length content) - 1 - 0 + 1)
    with (Z.of_nat (List.length content)) by lia.
  destruct (Z.ltb_spec (Z.of_nat (List.length content)) 0); [lia|].
  rewrite Nat2Z.id. change (Z.to_nat 0) with 0%nat.
  cbn [List.skipn]. rewrite List.firstn_all. reflexivity.
Qed.

Lemma unparsable_range_whole_file_witness :
  send_file Sample.tree (Some "bytes=abc") "/srv/media/hello.txt"
  = Sent 206 [("Content-Type", "application/octet-stream");
              ("Accept-Ranges", "bytes");
              ("Content-Range", "bytes 0-1/2");
              ("Content-Length", "2")]
         (Some Sample.hello).
Proof.
  apply (unparsable_range_whole_file Sample.tree "bytes=abc"
           "/srv/media/hello.txt" Sample.hello).
  - vm_compute. reflexivity.
  - discriminate.
  - vm_compute. reflexivity.
Defined.




End RangeStreamer.

(** ** Paging in [send_dir] *)

Section Paginator.

Import Handler.

Lemma insert_sorted_length (x : string) (l : list string) :
  List.length (insert_sorted x l) = S (List.length l).
Proof.
  induction l as [|y r IH]; simpl; [reflexivity|].
  destruct (String.leb x y); simpl; [reflexivity|]. rewrite IH. reflexivity.
Qed.

Lemma sorted_length (l : list string) :
  List.length (sorted l) = List.length l.
Proof.
  induction l as [|x r IH]; simpl; [reflexivity|].
  rewrite insert_sorted_length, IH. reflexivity.
Qed.

Lemma total_pages_ceil (n : Z) :
  0 <= n ->
  1 <= total_pages_of n
  /\ (0 < n -> page_size * (total_pages_of n - 1) < n <= page_size * total_pages_of n).
Proof.
  intros Hn. unfold total_pages_of, page_size.
  pose proof (Z.div_mod (n + 10 - 1) 10 ltac:(lia)) as Hdm.
  pose proof (Z.mod_pos_bound (n + 10 - 1) 10 ltac:(lia)) as Hmod.
  split; [lia|]. intros Hpos. lia.
Qed.

Lemma parse_page_clamped (page_param : string) (total : Z) :
  1 <= total ->
  clamp_page (parse_page page_param) total = page_for page_param total
  /\ 1 <= page_for page_param total <= total.
Proof.
  intros Ht. unfold clamp_page, parse_page, page_for.
  destruct (PyStr.int page_param) as [n|].
  - destruct (Z.ltb_spec n 1).
    + rewrite Z.max_l by lia. destruct (Z.ltb_spec total 1); lia.
    + rewrite Z.max_r by lia. destruct (Z.ltb_spec total n); lia.
  - destruct (Z.ltb_spec total 1); lia.
Qed.

Lemma slice_length {A} (l : list A) (a b : Z) :
  0 <= a <= b ->
  Z.of_nat (List.length (slice l a b))
  = Z.max 0 (Z.min (b - a) (Z.of_nat (List.length l) - a)).
Proof.
  intros H. unfold slice.
  rewrite List.length_firstn, List.length_skipn. lia.
Qed.



End Paginator.

(** ** The catalog *)

Section CatalogBuilder.

Import Sync.









(** Two files of two bytes keep the order of the walk, after which
    comes the larger one. *)
Example catalog_of_sample :
  build_sorted_file_list "/" Sample.cache "/srv/media"
    [("/srv/media", [], ["clip.mov"; "pic.jpg"; "song.mp3"])]
  = [("pic.jpg", 2); ("song.mp3", 2); ("clip.mov", 6)].
Proof. vm_compute. reflexivity. Qed.

End CatalogBuilder.

(** ** The video command *)

Section VideoCommand.

Import Sync.

Lemma eqb_neq_false (a b : string) : a <> b -> String.eqb a b = false.
Proof. intros H. destruct (String.eqb_spec a b); [contradiction|reflexivity]. Qed.

(** C8: the command of [convert_video] is the base command with the
    pair [-r 30] placed right before [-c:v] exactly when the probed
    frame rate (30 when the probe fails) exceeds 30; every other
    argument keeps its place in the order.  The tool path and the
    source path are not the literal [-c:v]. *)
Theorem rate_cap_before_codec (cfg : config)
    (probe_resolution : string -> option (Z * Z))
    (probe_fps : string -> option float) (src dst : string) :
  FFMPEG_EXE cfg <> "-c:v" ->
  src <> "-c:v" ->
  exists scale,
    let head := [FFMPEG_EXE cfg; "-noautorotate"; "-i"; src; "-vf"; scale] in
    let fps := match probe_fps src with Some f => f | None => 30%float end in
    video_base_cmd cfg probe_resolution src = List.app head video_codec_args
    /\ video_cmd cfg probe_resolution probe_fps src dst
       = Some (List.app head
                 (List.app (if (30 <? fps)%float then ["-r"; "30"] else [])
                    (List.app video_codec_args [dst])))
    /\ (probe_fps src = None ->
        video_cmd cfg probe_resolution probe_fps src dst
        = Some (List.app head (List.app video_codec_args [dst]))).
Proof.
  intros Hexe Hsrc.
  apply eqb_neq_false in Hexe, Hsrc.
  set (scale := let '(w, h) := ffprobe_resolution probe_resolution src in
                if (w =? 0) || (h =? 0) then "scale=1024:-2"
                else if h <=? w then "scale=1024:-2" else "scale=-2:768").
  exists scale.
  assert (Hbase : video_base_cmd cfg probe_resolution src
                  = List.app [FFMPEG_EXE cfg; "-noautorotate"; "-i"; src; "-vf"; scale]
                      video_codec_args).
  { unfold video_base_cmd, scale.
    destruct (ffprobe_resolution probe_resolution src) as [w h]. reflexivity. }
  assert (Hscale : String.eqb scale "-c:v" = false).
  { unfold scale. destruct (ffprobe_resolution probe_resolution src) as [w h].
    destruct ((w =? 0) || (h =? 0)); [reflexivity|].
    destruct (h <=? w); reflexivity. }
  assert (Hidx : list_index "-c:v" (video_base_cmd cfg probe_resolution src)
                 = Some 6%nat).
  { rewrite Hbase. cbn [List.app list_index].
    rewrite Hexe, Hsrc, Hscale. reflexivity. }
  cbv zeta. split; [exact Hbase|].
  assert (Hcmd : video_cmd cfg probe_resolution probe_fps src dst
     = Some (List.app [FFMPEG_EXE cfg; "-noautorotate"; "-i"; src; "-vf"; scale]
               (List.app
                  (if (30 <? match probe_fps src with
                             | Some f => f
                             | None => 30%float
                             end)%float
                   then ["-r"; "30"] else [])
                  (List.app video_codec_args [dst])))).
  { unfold video_cmd, ffprobe_fps. rewrite Hidx, Hbase.
    destruct (30 <? _)%float; reflexivity. }
  split; [exact Hcmd|].
  intros Hnone. rewrite Hcmd, Hnone. reflexivity.
Qed.

Lemma rate_cap_before_codec_witness :
  video_cmd Sample.cfg Sample.probe_resolution Sample.probe_fps
    "/srv/media/clip.mov" "/app/_temp/_server/clip.mp4"
  = Some (List.app
            ["ffmpeg"; "-noautorotate"; "-i"; "/srv/media/clip.mov";
             "-vf"; "scale=1024:-2"; "-r"; "30"]
            (List.app video_codec_args ["/app/_temp/_server/clip.mp4"])).
Proof.
  destruct (rate_cap_before_codec Sample.cfg Sample.probe_resolution
              Sample.probe_fps "/srv/media/clip.mov"
              "/app/_temp/_server/clip.mp4")
    as (scale & Hbase & Hcmd & _).
  - discriminate.
  - discriminate.
  - rewrite Hcmd. injection Hbase as Hscale. subst scale. reflexivity.
Defined.

End VideoCommand.

(** ** Freshness checks of the sync phases *)

Section Freshness.

Import Sync.

(** C3 (code bug): with a thumbnail of zero bytes already in place, the
    thumbnail phase prints its skip line for the picture and does not
    run the tool, whatever the tool would do: the thumbnail stays
    empty.  The test is [os.path.exists] alone. *)
Theorem empty_thumbnail_is_skipped
    (tool : list string -> gmap string FS.node -> run_result) :
  FS.getsize Sample.cache "/app/_temp/_images/_thumbnails/pic_thumb.jpg" = Some 0
  /\ generate_thumbnails_first Sample.mirror_cfg "/" tool "/srv/media"
       [("pic.jpg", 2)] Sample.start
     = (Ok tt,
        {| files := Sample.cache;
           trace := [Printed (nl ++ "=== Generating Thumbnails (Smallest Files First) ==="
                                ++ nl);
                     Printed "[SKIP] pic_thumb.jpg [Preview Already Exists]"] |}).
Proof. split; vm_compute; reflexivity. Qed.

(** The sibling phase does look at the size: a cover preview of zero
    bytes is extracted again. *)
Example empty_preview_is_extracted_again :
  exists w,
    generate_audio_covers Sample.mirror_cfg "/" Sample.tool_ok "/srv/media"
      [("song.mp3", 2)] Sample.start = (Ok tt, w)
    /\ trace w
       = [Printed (nl ++ "=== Extracting Audio Previews (Smallest Files First) ==="
                      ++ nl);
          Ran (copy_cmd Sample.mirror_cfg "/srv/media/song.mp3"
                 "/app/_temp/_images/_preview/song_preview.jpg");
          Printed "[PREVIEW] song.mp3 -> song_preview.jpg"]
    /\ files w !! "/app/_temp/_images/_preview/song_preview.jpg"
       = Some (FS.File [Byte.x01]).
Proof. eexists. split; [vm_compute; reflexivity|]. split; vm_compute; reflexivity. Qed.

(** C2, as stated, fails: the converted clip exists in the mirror tree,
    and the mirror phase runs the video conversion on it again. *)
Lemma existing_destination_is_reconverted :
  FS.exists_ Sample.cache "/app/_temp/_server/clip.mp4" = true
  /\ exists w,
       process_file_to_server Sample.mirror_cfg Sample.tool_ok
         Sample.probe_resolution Sample.probe_fps "/srv/media" "clip.mov"
         Sample.start = (Ok tt, w)
       /\ trace w
          = [Printed "[OVERWRITE VIDEO] clip.mov -> clip.mp4";
             Ran (List.app
                    ["ffmpeg"; "-noautorotate"; "-i"; "/srv/media/clip.mov";
                     "-vf"; "scale=1024:-2"; "-r"; "30"]
                    (List.app video_codec_args ["/app/_temp/_server/clip.mp4"]))]
       /\ files w !! "/app/_temp/_server/clip.mp4" = Some (FS.File [Byte.x01]).
Proof.
  split; [reflexivity|]. eexists.
  split; [vm_compute; reflexivity|]. split; vm_compute; reflexivity.
Qed.

Lemma bind_ok {A B} (c : M A) (k : A -> M B) (w w' : world) (a : A) :
  c w = (Ok a, w') -> bind c k w = k a w'.
Proof. intros H. unfold bind. rewrite H. reflexivity. Qed.

Lemma bind_assoc {A B C} (c : M A) (k1 : A -> M B) (k2 : B -> M C) (w : world) :
  bind (bind c k1) k2 w = bind c (fun a => bind (k1 a) k2) w.
Proof. unfold bind. destruct (c w) as [[a| |] w']; reflexivity. Qed.

Lemma list_index_in (x : string) (l : list string) :
  List.In x l -> exists i, list_index x l = Some i.
Proof.
  induction l as [|y r IH]; [contradiction|]. intros Hin. cbn [list_index].
  destruct (String.eqb_spec y x) as [_|Hne]; [exists O; reflexivity|].
  destruct Hin as [Heq|Hin]; [contradiction|].
  destruct (IH Hin) as [i Hi]. rewrite Hi. exists (S i). reflexivity.
Qed.

Lemma video_cmd_some (cfg : config) (pr : string -> option (Z * Z))
    (pf : string -> option float) (src dst : string) :
  exists cmd, video_cmd cfg pr pf src dst = Some cmd /\ List.last cmd "" = dst.
Proof.
  unfold video_cmd. destruct (30 <? ffprobe_fps pf src)%float.
  - assert (Hin : List.In "-c:v" (video_base_cmd cfg pr src)).
    { unfold video_base_cmd. destruct (ffprobe_resolution pr src) as [w h].
      cbn [List.In]. do 6 right. left. reflexivity. }
    destruct (list_index_in _ _ Hin) as [i Hi]. rewrite Hi.
    eexists. split; [reflexivity|].
    rewrite !List.app_assoc. apply List.last_last.
  - eexists. split; [reflexivity|]. apply List.last_last.
Qed.

Lemma image_cmd_last (cfg : config) (pr : string -> option (Z * Z))
    (src dst : string) :
  List.last (image_cmd cfg pr src dst) "" = dst.
Proof.
  unfold image_cmd. destruct (ffprobe_resolution pr src) as [w h]. reflexivity.
Qed.

Lemma subprocess_run_trace (tool : list string -> gmap string FS.node -> run_result)
    (check : bool) (cmd : list string) (w : world) :
  trace (snd (subprocess_run tool check cmd w)) = List.app (trace w) [Ran cmd].
Proof.
  unfold subprocess_run. destruct (launched _); cbn [negb]; [|reflexivity].
  destruct (check && _); reflexivity.
Qed.

Lemma ext_in_cases (e : string) (exts : list string) :
  ext_in e exts = true -> List.In e exts.
Proof.
  unfold ext_in. intros H. apply List.existsb_exists in H as (x & Hin & Heq).
  apply String.eqb_eq in Heq. subst x. exact Hin.
Qed.

Lemma converted_not_audio (e : string) :
  ext_in e VIDEO_EXT = true \/ ext_in e IMAGE_EXT = true ->
  ext_in e AUDIO_EXT = false.
Proof.
  intros [H|H]; apply ext_in_cases in H; cbn [List.In VIDEO_EXT IMAGE_EXT] in H;
    repeat (destruct H as [<-|H]; [reflexivity|]); contradiction.
Qed.

(** C2 (amended): in mirror mode, once the destination folder is in
    place, an entry of Video or Image class is always converted: the
    phase prints [OVERWRITE] when the destination exists and the plain
    line when it does not, and in both cases runs the conversion command
    on that destination, without any hash or freshness comparison. *)
Theorem conversion_runs_regardless (cfg : config)
    (tool : list string -> gmap string FS.node -> run_result)
    (pr : string -> option (Z * Z)) (pf : string -> option float)
    (source_folder rel_path server_dir : string) (w0 w1 : world) :
  BASE_SERVER_DIR cfg = Some server_dir ->
  MODE cfg <> "nocopytotemp" ->
  let src := PosixPath.join source_folder rel_path in
  let ext := ext_of src in
  let is_video := ext_in ext VIDEO_EXT in
  let dst_rel := fst (PosixPath.splitext rel_path)
                 ++ (if is_video then ".mp4" else ".jpg") in
  let dst := PosixPath.join server_dir dst_rel in
  is_video = true \/ ext_in ext IMAGE_EXT = true ->
  (ensure_temp_root cfg ;; makedirs (PosixPath.dirname dst)) w0 = (Ok tt, w1) ->
  exists cmd r w',
    process_file_to_server cfg tool pr pf source_folder rel_path w0 = (r, w')
    /\ (if is_video then video_cmd cfg pr pf src dst = Some cmd
        else cmd = image_cmd cfg pr src dst)
    /\ List.last cmd "" = dst
    /\ trace w'
       = List.app (trace w1)
           [Printed (convert_line (FS.exists_ (files w1) dst)
                       (if is_video then "VIDEO" else "IMAGE") rel_path dst_rel);
            Ran cmd].
Proof.
  intros Hbase Hmode src ext is_video dst_rel dst Hclass Hprep.
  pose proof (converted_not_audio ext Hclass) as Haudio.
  unfold process_file_to_server. rewrite Hbase.
  destruct (String.eqb_spec (MODE cfg) "nocopytotemp") as [|_]; [contradiction|].
  fold src. fold ext. rewrite Haudio. fold is_video.
  cbn [orb].
  destruct is_video eqn:Hvideo.
  - (* video *)
    cbn [negb andb]. fold dst_rel dst.
    rewrite <- bind_assoc. rewrite (bind_ok _ _ w0 w1 tt Hprep).
    destruct (video_cmd_some cfg pr pf src dst) as (cmd & Hcmd & Hlast).
    exists cmd.
    unfold convert_video. rewrite Hcmd.
    unfold path_exists, get_files, bind, ret, print, convert_line.
    cbn [files trace].
    destruct (FS.exists_ (files w1) dst);
      match goal with
      | |- context [subprocess_run tool false cmd ?w] =>
          pose proof (subprocess_run_trace tool false cmd w) as Htr;
          destruct (subprocess_run tool false cmd w) as [r w'] eqn:Hrun
      end;
      exists r, w'; cbn [snd trace] in Htr;
      (split; [reflexivity|]); (split; [reflexivity|]); (split; [exact Hlast|]);
      rewrite Htr, <- List.app_assoc; reflexivity.
  - (* image *)
    destruct Hclass as [Hc|Himage]; [discriminate|]. rewrite Himage.
    cbn [negb andb]. fold dst_rel dst.
    rewrite <- bind_assoc. rewrite (bind_ok _ _ w0 w1 tt Hprep).
    exists (image_cmd cfg pr src dst).
    unfold convert_image_full.
    unfold path_exists, get_files, bind, ret, print, convert_line.
    cbn [files trace].
    destruct (FS.exists_ (files w1) dst);
      match goal with
      | |- context [subprocess_run tool false ?cmd ?w] =>
          pose proof (subprocess_run_trace tool false cmd w) as Htr;
          destruct (subprocess_run tool false cmd w) as [r w'] eqn:Hrun
      end;
      exists r, w'; cbn [snd trace] in Htr;
      (split; [reflexivity|]); (split; [reflexivity|]);
      (split; [apply image_cmd_last|]);
      rewrite Htr, <- List.app_assoc; reflexivity.
Qed.

Lemma conversion_runs_regardless_witness :
  exists cmd r w',
    process_file_to_server Sample.mirror_cfg Sample.tool_ok
      Sample.probe_resolution Sample.probe_fps "/srv/media" "clip.mov"
      Sample.start = (r, w')
    /\ List.last cmd "" = "/app/_temp/_server/clip.mp4"
    /\ trace w' = [Printed "[OVERWRITE VIDEO] clip.mov -> clip.mp4"; Ran cmd].
Proof.
  destruct (conversion_runs_regardless Sample.mirror_cfg Sample.tool_ok
              Sample.probe_resolution Sample.probe_fps "/srv/media" "clip.mov"
              "/app/_temp/_server" Sample.start Sample.start)
    as (cmd & r & w' & Hrun & _ & Hlast & Htrace).
  - reflexivity.
  - discriminate.
  - left. reflexivity.
  - vm_compute. reflexivity.
  - exists cmd, r, w'. split; [exact Hrun|]. split; [exact Hlast|exact Htrace].
Defined.

End Freshness.

(** ** Lengths of path prefixes *)

Section PathLengths.

Lemma substring_prefix_length (n : nat) (s : string) :
  String.length (String.substring 0 n s) = Nat.min n (String.length s).
Proof.
  revert n. induction s as [|c r IH]; intros [|n]; cbn; try reflexivity.
  rewrite IH. reflexivity.
Qed.

Lemma substring_prefix_all (n : nat) (s : string) :
  (String.length s <= n)%nat -> String.substring 0 n s = s.
Proof.
  revert n. induction s as [|c r IH]; intros [|n] H; cbn in *; try reflexivity.
  - lia.
  - rewrite IH by lia. reflexivity.
Qed.

Lemma rstrip_same_or_shorter (c : ascii) (s : string) :
  PyStr.rstrip c s = s
  \/ (String.length (PyStr.rstrip c s) < String.length s)%nat.
Proof.
  induction s as [|d r IH]; [left; reflexivity|].
  cbn [PyStr.rstrip].
  destruct IH as [IH|IH].
  - rewrite IH. destruct r as [|e r'].
    + destruct (Ascii.eqb d c); [right; cbn; lia|left; reflexivity].
    + left. reflexivity.
  - destruct (PyStr.rstrip c r) as [|e r'] eqn:E.
    + right. destruct (Ascii.eqb d c); cbn in *; lia.
    + right. cbn in *. lia.
Qed.


Lemma dirname_same_or_shorter (p : string) :
  PosixPath.dirname p = p
  \/ (String.length (PosixPath.dirname p) < String.length p)%nat.
Proof.
  unfold PosixPath.dirname, PosixPath.take.
  set (n := Z.to_nat (PosixPath.rfind PosixPath.slash p + 1)).
  assert (Hhead : String.substring 0 n p = p
                  \/ (String.length (String.substring 0 n p) < String.length p)%nat).
  { destruct (Nat.le_gt_cases (String.length p) n) as [Hle|Hlt].
    - left. apply substring_prefix_all. exact Hle.
    - right. rewrite substring_prefix_length. lia. }
  destruct (negb _ && negb _); [|exact Hhead].
  destruct (rstrip_same_or_shorter PosixPath.slash (String.substring 0 n p))
    as [Hr|Hr]; [rewrite Hr; exact Hhead|].
  right. destruct Hhead as [Hh|Hh]; [rewrite Hh in Hr at 2; exact Hr|lia].
Qed.


End PathLengths.

(** ** Removing empty folders *)

Section EmptyFolders.

Import Sync.

Lemma has_children_intro (m : gmap string FS.node) (d k : string) (n : FS.node) :
  m !! k = Some n -> PosixPath.dirname k = d -> k <> d ->
  has_children m d = true.
Proof.
  intros Hk Hd Hne. unfold has_children. apply List.existsb_exists.
  exists (k, n). split.
  - apply list_elem_of_In, elem_of_map_to_list. exact Hk.
  - cbn [fst]. unfold FS.child_name.
    rewrite (proj2 (String.eqb_eq _ _) Hd).
    rewrite (proj2 (String.eqb_neq _ _) Hne). reflexivity.
Qed.

Lemma has_children_elim (m : gmap string FS.node) (d : string) :
  has_children m d = true ->
  exists k n, m !! k = Some n /\ PosixPath.dirname k = d /\ k <> d.
Proof.
  unfold has_children. intros H.
  apply List.existsb_exists in H as ([k n] & Hin & Hf).
  apply list_elem_of_In, elem_of_map_to_list in Hin.
  exists k, n. split; [exact Hin|]. cbn [fst] in Hf. unfold FS.child_name in Hf.
  destruct (String.eqb_spec (PosixPath.dirname k) d) as [Hd|]; [|discriminate].
  destruct (String.eqb_spec k d) as [|Hne]; [discriminate|].
  split; assumption.
Qed.

Lemma isdir_lookup (m : gmap string FS.node) (p : string) :
  FS.isdir m p = true <-> m !! p = Some FS.Dir.
Proof.
  unfold FS.isdir. destruct (m !! p) as [[c|]|]; split; congruence.
Qed.

Lemma rmdir_run (m : gmap string FS.node) (t : list event) (p : string) :
  rmdir p {| files := m; trace := t |}
  = if empty_dir m p then (Ok tt, {| files := delete p m; trace := t |})
    else (Raise, {| files := m; trace := t |}).
Proof.
  unfold rmdir, bind, get_files, set_files, raise, empty_dir. cbn [files trace].
  destruct (FS.isdir m p && negb (has_children m p)); reflexivity.
Qed.


Lemma well_formed_rmdir (m : gmap string FS.node) (p : string) :
  well_formed m -> has_children m p = false -> well_formed (delete p m).
Proof.
  intros Hwf Hempty q n Hq Hdir.
  apply lookup_delete_Some in Hq as [Hne Hq].
  specialize (Hwf q n Hq Hdir). apply isdir_lookup in Hwf.
  apply isdir_lookup. rewrite lookup_delete_ne; [exact Hwf|].
  intros Heq.
  rewrite (has_children_intro m p q n Hq) in Hempty; congruence.
Qed.



Lemma ancestor_shift (k : nat) (p : string) :
  ancestor (S k) p = ancestor k (PosixPath.dirname p).
Proof.
  induction k as [|k IH]; [reflexivity|].
  cbn [ancestor] in *. rewrite IH. reflexivity.
Qed.

(** In a well-formed tree, above an entry that is not an empty folder
    no folder is empty. *)
Lemma chain_not_empty (m : gmap string FS.node) (p : string) :
  well_formed m -> m !! p <> None -> empty_dir m p = false ->
  forall j, m !! ancestor j p <> None /\ empty_dir m (ancestor j p) = false.
Proof.
  intros Hwf Hp He. induction j as [|j [IHp IHe]]; [split; assumption|].
  cbn [ancestor].
  destruct (String.eqb_spec (PosixPath.dirname (ancestor j p)) (ancestor j p))
    as [Hfix|Hup].
  - rewrite Hfix. split; assumption.
  - destruct (m !! ancestor j p) as [n|] eqn:Hn; [|congruence].
    pose proof (Hwf _ n Hn Hup) as Hdir. split.
    + apply isdir_lookup in Hdir. congruence.
    + unfold empty_dir. rewrite Hdir.
      rewrite (has_children_intro m _ (ancestor j p) n Hn eq_refl); [reflexivity|].
      congruence.
Qed.

Lemma swept_refl (stop : string) (m : gmap string FS.node) : swept stop m m.
Proof. intros p. left. reflexivity. Qed.

Lemma swept_step (stop c : string) (m m' : gmap string FS.node) :
  FS.isdir m c = true -> strictly_inside stop c = true ->
  swept stop (delete c m) m' -> swept stop m m'.
Proof.
  intros Hdir Hin Hs p. destruct (Hs p) as [Heq|(Hnone & Hwas & Hp)].
  - destruct (String.eqb_spec c p) as [->|Hne].
    + rewrite lookup_delete_eq in Heq. right.
      split; [exact Heq|]. split; [apply isdir_lookup; exact Hdir|exact Hin].
    + rewrite lookup_delete_ne in Heq by exact Hne. left. exact Heq.
  - right. split; [exact Hnone|]. split; [|exact Hp].
    apply lookup_delete_Some in Hwas as [_ Hwas]. exact Hwas.
Qed.

(** The loop of [remove_empty_dirs] ends within its fuel; it removes
    folders strictly inside [stop] only; and on a well-formed tree, when
    it starts at an existing entry, it leaves no empty folder on the
    chain strictly inside [stop]. *)
Lemma remove_empty_loop_spec (stop : string) (fuel : nat) :
  forall (current : string) (m : gmap string FS.node) (t : list event),
    (String.length current + 2 <= fuel)%nat ->
    exists m',
      remove_empty_loop fuel stop current {| files := m; trace := t |}
      = (Ok tt, {| files := m'; trace := t |})
      /\ swept stop m m'
      /\ (well_formed m -> m !! current <> None ->
          well_formed m'
          /\ forall j,
               (forall i, (i <= j)%nat ->
                          strictly_inside stop (ancestor i current) = true) ->
               empty_dir m' (ancestor j current) = false).
Proof.
  induction fuel as [|k IH]; intros current m t Hfuel; [lia|].
  cbn [remove_empty_loop].
  destruct (PyStr.startswith current stop) eqn:Hstart; cbn [negb].
  2:{ exists m. split; [reflexivity|]. split; [apply swept_refl|].
      intros Hwf _. split; [exact Hwf|]. intros j Hj.
      specialize (Hj O ltac:(lia)). unfold strictly_inside in Hj.
      cbn [ancestor] in Hj. rewrite Hstart in Hj. discriminate. }
  destruct (String.eqb_spec current stop) as [Heq|Hneq].
  { exists m. split; [reflexivity|]. split; [apply swept_refl|].
    intros Hwf _. split; [exact Hwf|]. intros j Hj.
    specialize (Hj O ltac:(lia)). unfold strictly_inside in Hj.
    cbn [ancestor] in Hj.
    rewrite (proj2 (String.eqb_eq _ _) Heq), andb_false_r in Hj. discriminate. }
  assert (Hinside : strictly_inside stop current = true).
  { unfold strictly_inside. rewrite Hstart.
    rewrite (proj2 (String.eqb_neq _ _) Hneq). reflexivity. }
  unfold bind at 1, try_. rewrite rmdir_run.
  destruct (empty_dir m current) eqn:Hempty.
  2:{ (* the folder cannot be removed: the loop stops *)
      exists m. split; [reflexivity|]. split; [apply swept_refl|].
      intros Hwf Hcur. split; [exact Hwf|]. intros j _.
      exact (proj2 (chain_not_empty m current Hwf Hcur Hempty j)). }
  (* the folder is removed *)
  apply andb_prop in Hempty as [Hdir Hnochild].
  apply negb_true_iff in Hnochild.
  destruct (dirname_same_or_shorter current) as [Hfix|Hshort].
  - (* no folder above: the next turn finds nothing to remove *)
    rewrite Hfix. destruct k as [|k']; [lia|].
    cbn [remove_empty_loop]. rewrite Hstart.
    rewrite (proj2 (String.eqb_neq _ _) Hneq). cbn [negb].
    unfold bind at 1, try_. rewrite rmdir_run.
    assert (Hgone : empty_dir (delete current m) current = false).
    { unfold empty_dir, FS.isdir. rewrite lookup_delete_eq. reflexivity. }
    rewrite Hgone.
    exists (delete current m). split; [reflexivity|].
    split; [apply (swept_step stop current m _ Hdir Hinside), swept_refl|].
    intros Hwf _. split; [apply well_formed_rmdir; assumption|].
    intros j _.
    assert (Hanc : ancestor j current = current).
    { induction j as [|j IHj]; [reflexivity|]. cbn [ancestor]. rewrite IHj. exact Hfix. }
    rewrite Hanc. exact Hgone.
  - destruct (IH (PosixPath.dirname current) (delete current m) t ltac:(lia))
      as (m' & Hrun & Hswept & Hchain).
    exists m'. split; [exact Hrun|].
    split; [exact (swept_step stop current m m' Hdir Hinside Hswept)|].
    intros Hwf Hcur.
    assert (Hup : PosixPath.dirname current <> current).
    { intros Heq. rewrite Heq in Hshort. lia. }
    assert (Hparent : delete current m !! PosixPath.dirname current <> None).
    { rewrite lookup_delete_ne by congruence.
      apply isdir_lookup in Hdir.
      pose proof (Hwf current FS.Dir Hdir Hup) as Hp.
      apply isdir_lookup in Hp. congruence. }
    destruct (Hchain (well_formed_rmdir m current Hwf Hnochild) Hparent)
      as [Hwf' Hrest].
    split; [exact Hwf'|]. intros [|j] Hj.
    + cbn [ancestor]. unfold empty_dir, FS.isdir.
      destruct (Hswept current) as [Hsame|(Hnone & _)].
      * rewrite Hsame, lookup_delete_eq. reflexivity.
      * rewrite Hnone. reflexivity.
    + rewrite ancestor_shift. apply Hrest. intros i Hi.
      rewrite <- ancestor_shift. apply Hj. lia.
Qed.

End EmptyFolders.

(** ** Creating folders and running the tool *)

Section FoldersAndTool.

Import Sync.

Lemma keeps_ret (I : gmap string FS.node -> Prop) {A} (a : A) : keeps I (ret a).
Proof. intros w r w' H HI. inversion H; subst. split; [exact HI|reflexivity]. Qed.

Lemma keeps_raise (I : gmap string FS.node -> Prop) {A} : keeps I (@raise A).
Proof. intros w r w' H HI. inversion H; subst. split; [exact HI|reflexivity]. Qed.

Lemma keeps_bind (I : gmap string FS.node -> Prop) {A B} (c : M A) (k : A -> M B) :
  keeps I c -> (forall a, keeps I (k a)) -> keeps I (bind c k).
Proof.
  intros Hc Hk w r w' H HI. unfold bind in H.
  destruct (c w) as [[a| |] w1] eqn:Hcw;
    destruct (Hc _ _ _ Hcw HI) as [HI1 Ht1].
  - destruct (Hk a _ _ _ H HI1) as [HI2 Ht2]. split; [exact HI2|congruence].
  - inversion H; subst. split; assumption.
  - inversion H; subst. split; assumption.
Qed.

Lemma keeps_try (I : gmap string FS.node -> Prop) {A} (c : M A) :
  keeps I c -> keeps I (try_ c).
Proof.
  intros Hc w r w' H HI. unfold try_ in H.
  destruct (c w) as [[a| |] w1] eqn:Hcw;
    destruct (Hc _ _ _ Hcw HI) as [HI1 Ht1];
    inversion H; subst; split; assumption.
Qed.

Lemma keeps_get_files (I : gmap string FS.node -> Prop) : keeps I get_files.
Proof. intros w r w' H HI. inversion H; subst. split; [exact HI|reflexivity]. Qed.

Lemma keeps_path_exists (I : gmap string FS.node -> Prop) (p : string) :
  keeps I (path_exists p).
Proof. apply keeps_bind; [apply keeps_get_files|intros m; apply keeps_ret]. Qed.

Lemma keeps_path_isdir (I : gmap string FS.node -> Prop) (p : string) :
  keeps I (path_isdir p).
Proof. apply keeps_bind; [apply keeps_get_files|intros m; apply keeps_ret]. Qed.

Section Invariant.

Variable I : gmap string FS.node -> Prop.
Hypothesis I_mkdir :
  forall m p, I m -> FS.exists_ m p = false ->
              FS.isdir m (PosixPath.dirname p) = true -> I (<[p := FS.Dir]> m).

Lemma keeps_mkdir (p : string) : keeps I (mkdir p).
Proof.
  intros [m t] r w' H HI. unfold mkdir, bind, get_files, set_files, raise in H.
  cbn [files trace] in *.
  destruct (FS.exists_ m p) eqn:He; [inversion H; subst; split; [exact HI|reflexivity]|].
  destruct (FS.isdir m (PosixPath.dirname p)) eqn:Hd; cbn [negb] in H;
    inversion H; subst; cbn [files trace]; split; try reflexivity; try exact HI.
  apply I_mkdir; assumption.
Qed.

Lemma keeps_makedirs_fuel (fuel : nat) :
  forall name, keeps I (makedirs_fuel fuel name).
Proof.
  induction fuel as [|k IH]; intros name; cbn [makedirs_fuel].
  - intros w r w' H HI. inversion H; subst. split; [exact HI|reflexivity].
  - destruct (path_split name) as [head0 tail0].
    destruct (if String.eqb tail0 "" then path_split head0 else (head0, tail0))
      as [head tail].
    apply keeps_bind.
    { apply keeps_bind; [apply keeps_path_exists|intros e; apply keeps_ret]. }
    intros missing. apply keeps_bind.
    { destruct missing; [|apply keeps_ret].
      apply keeps_bind; [apply keeps_try, IH|intros; apply keeps_ret]. }
    intros _. destruct (missing && String.eqb tail "."); [apply keeps_ret|].
    apply keeps_bind; [apply keeps_try, keeps_mkdir|].
    intros [u|]; [apply keeps_ret|].
    apply keeps_bind; [apply keeps_path_isdir|].
    intros d. destruct d; [apply keeps_ret|apply keeps_raise].
Qed.

Lemma keeps_makedirs (name : string) : keeps I (makedirs name).
Proof. apply keeps_makedirs_fuel. Qed.

Lemma keeps_ensure_temp_root (cfg : config) : keeps I (ensure_temp_root cfg).
Proof.
  unfold ensure_temp_root. apply keeps_bind; [apply keeps_path_exists|].
  intros e. apply keeps_bind; [|intros; apply keeps_ret].
  destruct (negb e); [apply keeps_makedirs|apply keeps_ret].
Qed.

Lemma keeps_ensure_images_root (cfg : config) : keeps I (ensure_images_root cfg).
Proof.
  unfold ensure_images_root.
  apply keeps_bind; [apply keeps_ensure_temp_root|]. intros _.
  apply keeps_bind; [apply keeps_path_exists|].
  intros e. apply keeps_bind; [|intros; apply keeps_ret].
  destruct (negb e); [apply keeps_makedirs|apply keeps_ret].
Qed.

End Invariant.







End FoldersAndTool.

(** ** Extracting an audio cover *)

Section AudioCover.

Import Sync.

Variable cfg : config.
Variable cwd : string.
Variable tool : list string -> gmap string FS.node -> run_result.


Lemma has_content_dir (m : gmap string FS.node) (p : string) :
  FS.isdir m p = true -> has_content m p = true.
Proof.
  intros H. apply isdir_lookup in H.
  unfold has_content, FS.exists_, FS.getsize. rewrite H. reflexivity.
Qed.



End AudioCover.

(** ** The fuel of the model is enough *)

Section Fuel.

Import Sync.



















End Fuel.

Section AudioCoverClaim.

Import Sync.




(** After two failed attempts on a first run the private tree is as it
    was: the three folders made for the cover are gone again. *)
Example failed_cover_leaves_no_trace :
  extract_audio_cover Sample.mirror_cfg "/" Sample.tool_fails
    "/srv/media/album/song.mp3"
    "/app/_temp/_images/_preview/album/song_preview.jpg" Sample.bare_start
  = (Ok false,
     {| files := Sample.bare;
        trace := [Ran (copy_cmd Sample.mirror_cfg "/srv/media/album/song.mp3"
                         "/app/_temp/_images/_preview/album/song_preview.jpg");
                  Ran (frame_cmd Sample.mirror_cfg "/srv/media/album/song.mp3"
                         "/app/_temp/_images/_preview/album/song_preview.jpg")] |}).
Proof. vm_compute. reflexivity. Qed.

End AudioCoverClaim.

(** * Further properties of the code *)

(** ** [remove_empty_dirs] on its own *)

Section SweepAlone.

Import Sync.

(** X1: [remove_empty_dirs] returns on every world and prints or runs
    nothing; an entry it changes is a folder whose path starts with the
    temp root and is not the temp root, and that folder is removed: no
    regular file and no folder elsewhere is touched. *)
Theorem remove_empty_dirs_sweeps (cfg : config) (cwd path : string) (w : world) :
  exists m',
    remove_empty_dirs cfg cwd path w
    = (Ok tt, {| files := m'; trace := trace w |})
    /\ swept (PosixPath.abspath cwd (TEMP_ROOT cfg)) (files w) m'
    /\ (forall p c, files w !! p = Some (FS.File c) -> m' !! p = Some (FS.File c))
    /\ m' !! PosixPath.abspath cwd (TEMP_ROOT cfg)
       = files w !! PosixPath.abspath cwd (TEMP_ROOT cfg).
Proof.
  destruct w as [m t]. unfold remove_empty_dirs, temp_root_path. cbn [files trace].
  destruct (remove_empty_loop_spec (PosixPath.abspath cwd (TEMP_ROOT cfg))
              (S (S (String.length (PosixPath.abspath cwd path))))
              (PosixPath.abspath cwd path) m t ltac:(lia))
    as (m' & Hrun & Hswept & _).
  exists m'. split; [exact Hrun|]. split; [exact Hswept|]. split.
  - intros p c Hp. destruct (Hswept p) as [Hsame|(_ & Hdir & _)]; congruence.
  - destruct (Hswept (PosixPath.abspath cwd (TEMP_ROOT cfg)))
      as [Hsame|(_ & _ & Hin)]; [exact Hsame|].
    unfold strictly_inside in Hin. rewrite String.eqb_refl, andb_false_r in Hin.
    discriminate.
Qed.

End SweepAlone.

(** ** Links of a listing lead back to their entries *)

Section LinkRoundTrip.

Import Handler.




End LinkRoundTrip.

(** ** Rows and pager of a listing *)

Section ListingShape.

Import Handler.

Lemma send_dir_paged (m : gmap string FS.node)
    (query_string directory rel : string) (names : list string) :
  FS.listdir m directory = Some names ->
  UrlLib.qs_first query_string "mode" "paged" = "paged" ->
  exists pg,
    send_dir m query_string directory rel = ListingPage directory rel pg
    /\ let items := sorted names in
       let total := total_pages_of (Z.of_nat (List.length items)) in
       let requested := parse_page (UrlLib.qs_first query_string "page" "1") in
       let page := clamp_page requested total in
       let shown := slice items ((page - 1) * page_size)
                      ((page - 1) * page_size + page_size) in
       total_pages pg = total
       /\ page_shown pg = page
       /\ rows pg
          = List.app
              (List.map (render_row m directory rel "paged"
                           ("&page=" ++ PyStr.str_of_Z requested)) shown)
              (List.repeat PlaceholderRow
                 (Z.to_nat (page_size - Z.of_nat (List.length shown))))
       /\ pager pg
          = if 1 <? total then
              Some {| nav_prev :=
                        if 1 <? page
                        then NavLink ("/" ++ quote rel ++ "?mode=paged&page="
                                          ++ PyStr.str_of_Z (page - 1))
                        else NavDisabled;
                      nav_next :=
                        if page <? total
                        then NavLink ("/" ++ quote rel ++ "?mode=paged&page="
                                          ++ PyStr.str_of_Z (page + 1))
                        else NavDisabled;
                      nav_label :=
                        "Page " ++ PyStr.str_of_Z page ++ "/"
                        ++ PyStr.str_of_Z total ++ " | Files "
                        ++ PyStr.str_of_Z (Z.of_nat (List.length shown))
                        ++ "/" ++ PyStr.str_of_Z page_size |}
            else None.
Proof.
  intros Hlist Hmode. unfold send_dir. rewrite Hlist. cbv zeta. rewrite Hmode.
  change (String.eqb "paged" "paged") with true. cbn [andb].
  eexists. split; [reflexivity|]. cbn [total_pages page_shown rows pager].
  repeat split; reflexivity.
Qed.

Lemma render_row_real (m : gmap string FS.node)
    (directory rel view_mode page_query name : string) :
  is_placeholder (render_row m directory rel view_mode page_query name) = false.
Proof.
  unfold render_row.
  repeat match goal with
  | |- context [if ?b then _ else _] => destruct b
  end; reflexivity.
Qed.

Lemma real_rows_padded (real : list row) (k : nat) :
  (forall r, List.In r real -> is_placeholder r = false) ->
  real_rows (List.app real (List.repeat PlaceholderRow k)) = real.
Proof.
  intros Hreal. unfold real_rows. rewrite List.filter_app.
  assert (Hpad : List.filter (fun r => negb (is_placeholder r))
                   (List.repeat PlaceholderRow k) = []).
  { induction k as [|k IH]; [reflexivity|]. cbn. exact IH. }
  rewrite Hpad, List.app_nil_r.
  induction real as [|r rest IH]; [reflexivity|].
  cbn [List.filter]. rewrite (Hreal r (or_introl eq_refl)). cbn [negb].
  rewrite IH; [reflexivity|]. intros x Hx. apply Hreal. right. exact Hx.
Qed.

(** X3: a paged listing has ten rows for every request: the entries of
    the page shown, at most ten, followed by placeholder rows up to ten;
    with [n] entries and page [p] shown, [min 10 (n - 10 (p - 1))] rows
    stand for entries. *)
Theorem paged_listing_has_ten_rows (m : gmap string FS.node)
    (query_string directory rel : string) (names : list string) :
  FS.listdir m directory = Some names ->
  UrlLib.qs_first query_string "mode" "paged" = "paged" ->
  exists pg,
    send_dir m query_string directory rel = ListingPage directory rel pg
    /\ List.length (rows pg) = 10%nat
    /\ Z.of_nat (List.length (real_rows (rows pg)))
       = Z.max 0 (Z.min 10 (Z.of_nat (List.length names)
                            - 10 * (page_shown pg - 1)))
    /\ exists k, rows pg = List.app (real_rows (rows pg))
                             (List.repeat PlaceholderRow k).
Proof.
  intros Hlist Hmode.
  destruct (send_dir_paged m query_string directory rel names Hlist Hmode)
    as (pg & Hpg & Hshape).
  cbv zeta in Hshape. destruct Hshape as (Htotal & Hpage & Hrows & _).
  exists pg. split; [exact Hpg|].
  set (total := total_pages_of (Z.of_nat (List.length (sorted names)))) in *.
  set (page := clamp_page (parse_page (UrlLib.qs_first query_string "page" "1"))
                 total) in *.
  set (shown := slice (sorted names) ((page - 1) * page_size)
                  ((page - 1) * page_size + page_size)) in *.
  assert (Htot1 : 1 <= total).
  { apply total_pages_ceil. lia. }
  destruct (parse_page_clamped (UrlLib.qs_first query_string "page" "1") total Htot1)
    as [Hclamp Hrange].
  fold page in Hclamp. rewrite <- Hclamp in Hrange.
  assert (Hlen : Z.of_nat (List.length shown)
                 = Z.max 0 (Z.min 10 (Z.of_nat (List.length names)
                                      - 10 * (page - 1)))).
  { subst shown. unfold page_size. rewrite slice_length by lia.
    rewrite sorted_length.
    replace ((page - 1) * 10 + 10 - (page - 1) * 10) with 10 by lia.
    replace ((page - 1) * 10) with (10 * (page - 1)) by lia. reflexivity. }
  assert (Hreal : real_rows (rows pg)
                  = List.map (render_row m directory rel "paged"
                                ("&page=" ++ PyStr.str_of_Z
                                   (parse_page (UrlLib.qs_first query_string "page" "1"))))
                      shown).
  { rewrite Hrows. apply real_rows_padded.
    intros r Hr. apply List.in_map_iff in Hr as (name & <- & _).
    apply render_row_real. }
  split; [|split].
  - rewrite Hrows, List.length_app, List.length_map, List.repeat_length.
    unfold page_size. lia.
  - rewrite Hreal, List.length_map, Hpage. exact Hlen.
  - eexists. rewrite Hreal. exact Hrows.
Qed.

Lemma paged_listing_has_ten_rows_witness :
  exists pg,
    send_dir Sample.album "mode=paged&page=3" "/srv/album" "album"
    = ListingPage "/srv/album" "album" pg
    /\ List.length (rows pg) = 10%nat
    /\ Z.of_nat (List.length (real_rows (rows pg))) = 3.
Proof.
  destruct (paged_listing_has_ten_rows Sample.album "mode=paged&page=3"
              "/srv/album" "album"
              (default [] (FS.listdir Sample.album "/srv/album")))
    as (pg & Hpg & Hten & Hreal & _).
  - vm_compute. reflexivity.
  - reflexivity.
  - exists pg. split; [exact Hpg|]. split; [exact Hten|].
    rewrite Hreal.
    assert (Hp : page_shown pg = 3).
    { vm_compute in Hpg. inversion Hpg. reflexivity. }
    rewrite Hp. reflexivity.
Defined.

(** X4: every value of [mode] other than [paged] gives the unpaged
    view: one row per entry of the folder, in sorted order, no
    placeholder row and no pager, whatever the [page] parameter says. *)
Theorem unpaged_listing_shows_all (m : gmap string FS.node)
    (query_string directory rel : string) (names : list string) :
  FS.listdir m directory = Some names ->
  UrlLib.qs_first query_string "mode" "paged" <> "paged" ->
  exists pg,
    send_dir m query_string directory rel = ListingPage directory rel pg
    /\ rows pg
       = List.map
           (render_row m directory rel
              (UrlLib.qs_first query_string "mode" "paged") "")
           (sorted names)
    /\ List.length (rows pg) = List.length names
    /\ real_rows (rows pg) = rows pg
    /\ pager pg = None.
Proof.
  intros Hlist Hmode. unfold send_dir. rewrite Hlist. cbv zeta.
  destruct (String.eqb_spec (UrlLib.qs_first query_string "mode" "paged") "paged")
    as [|_]; [contradiction|].
  cbn [andb]. eexists. split; [reflexivity|]. cbn [rows pager].
  rewrite List.app_nil_r.
  split; [reflexivity|]. split; [|split; [|reflexivity]].
  - rewrite List.length_map. apply sorted_length.
  - rewrite <- (List.app_nil_r (List.map _ _)) at 1.
    change (@nil row) with (List.repeat PlaceholderRow 0).
    apply real_rows_padded.
    intros r Hr. apply List.in_map_iff in Hr as (name & <- & _).
    apply render_row_real.
Qed.

Lemma unpaged_listing_shows_all_witness :
  exists pg,
    send_dir Sample.album "mode=listmode&page=7" "/srv/album" "album"
    = ListingPage "/srv/album" "album" pg
    /\ List.length (rows pg) = 23%nat
    /\ pager pg = None.
Proof.
  destruct (unpaged_listing_shows_all Sample.album "mode=listmode&page=7"
              "/srv/album" "album"
              (default [] (FS.listdir Sample.album "/srv/album")))
    as (pg & Hpg & _ & Hlen & _ & Hpager).
  - vm_compute. reflexivity.
  - vm_compute. discriminate.
  - exists pg. split; [exact Hpg|]. split; [exact Hlen|exact Hpager].
Defined.

(** X5: the pager of a paged listing is shown exactly when the folder
    has more than ten entries; its Prev button is disabled exactly on
    page 1 and otherwise links to the page before, its Next button is
    disabled exactly on the last page and otherwise links to the page
    after: no button leads outside the pages [1 .. total]. *)
Theorem pager_stays_in_range (m : gmap string FS.node)
    (query_string directory rel : string) (names : list string) :
  FS.listdir m directory = Some names ->
  UrlLib.qs_first query_string "mode" "paged" = "paged" ->
  exists pg,
    send_dir m query_string directory rel = ListingPage directory rel pg
    /\ 1 <= page_shown pg <= total_pages pg
    /\ (pager pg = None <-> (List.length names <= 10)%nat)
    /\ forall nv, pager pg = Some nv ->
         (nav_prev nv = NavDisabled <-> page_shown pg = 1)
         /\ (nav_next nv = NavDisabled <-> page_shown pg = total_pages pg)
         /\ (forall href, nav_prev nv = NavLink href ->
               1 <= page_shown pg - 1
               /\ href = "/" ++ quote rel ++ "?mode=paged&page="
                             ++ PyStr.str_of_Z (page_shown pg - 1))
         /\ (forall href, nav_next nv = NavLink href ->
               page_shown pg + 1 <= total_pages pg
               /\ href = "/" ++ quote rel ++ "?mode=paged&page="
                             ++ PyStr.str_of_Z (page_shown pg + 1)).
Proof.
  intros Hlist Hmode.
  destruct (send_dir_paged m query_string directory rel names Hlist Hmode)
    as (pg & Hpg & Hshape).
  cbv zeta in Hshape. destruct Hshape as (Htotal & Hpage & _ & Hpager).
  exists pg. split; [exact Hpg|].
  rewrite <- Hpage in Hpager. rewrite <- Htotal in Hpager.
  assert (Htot1 : 1 <= total_pages pg).
  { rewrite Htotal. apply total_pages_ceil. lia. }
  assert (Hrange : 1 <= page_shown pg <= total_pages pg).
  { rewrite Hpage. rewrite <- Htotal.
    destruct (parse_page_clamped (UrlLib.qs_first query_string "page" "1")
                (total_pages pg) Htot1) as [Hc Hr].
    rewrite Hc. exact Hr. }
  split; [exact Hrange|]. split.
  - assert (Hone : total_pages pg <= 1 <-> (List.length names <= 10)%nat).
    { rewrite Htotal, sorted_length. unfold total_pages_of, page_size.
      pose proof (Z.div_mod (Z.of_nat (List.length names) + 10 - 1) 10 ltac:(lia)).
      pose proof (Z.mod_pos_bound (Z.of_nat (List.length names) + 10 - 1) 10
                    ltac:(lia)).
      lia. }
    rewrite Hpager. destruct (Z.ltb_spec 1 (total_pages pg)); split; intros H';
      try discriminate; try reflexivity; lia.
  - intros nv Hnv. rewrite Hpager in Hnv.
    destruct (Z.ltb_spec 1 (total_pages pg)); [|discriminate].
    inversion Hnv; subst nv; clear Hnv. cbn [nav_prev nav_next].
    destruct (Z.ltb_spec 1 (page_shown pg));
      destruct (Z.ltb_spec (page_shown pg) (total_pages pg));
      repeat split; intros; try discriminate; try lia;
      try match goal with
          | H' : NavLink _ = NavLink _ |- _ => inversion H'; reflexivity
          end.
Qed.

Lemma pager_stays_in_range_witness :
  exists pg nv,
    send_dir Sample.album "mode=paged&page=99" "/srv/album" "album"
    = ListingPage "/srv/album" "album" pg
    /\ pager pg = Some nv
    /\ nav_next nv = NavDisabled
    /\ nav_prev nv = NavLink "/album?mode=paged&page=2".
Proof.
  destruct (pager_stays_in_range Sample.album "mode=paged&page=99"
              "/srv/album" "album"
              (default [] (FS.listdir Sample.album "/srv/album")))
    as (pg & Hpg & _ & _ & Hnav).
  - vm_compute. reflexivity.
  - reflexivity.
  - assert (Hp : exists nv, pager pg = Some nv
                            /\ nav_prev nv = NavLink "/album?mode=paged&page=2"
                            /\ page_shown pg = total_pages pg).
    { vm_compute in Hpg. inversion Hpg. eexists. repeat split. }
    destruct Hp as (nv & Hnv & Hprev & Hlast).
    exists pg, nv. split; [exact Hpg|]. split; [exact Hnv|].
    split; [|exact Hprev].
    apply (proj1 (proj2 (Hnav nv Hnv))). exact Hlast.
Defined.

End ListingShape.

(** ** Failures stay with their file *)

Section Isolation.

Import Sync.

Variable cfg : config.
Variable cwd : string.
Variable tool : list string -> gmap string FS.node -> run_result.
Variable probe_resolution : string -> option (Z * Z).
Variable probe_fps : string -> option float.

















End Isolation.

(** ** Copies of the mirror phase *)

Section MirrorCopy.

Import Sync.

(** X8: in mirror mode, for an entry that is copied (an audio file or a
    file of no media class) whose source is a regular file and whose
    destination folder is in place: when the destination holds the same
    bytes the phase prints its skip line and writes nothing; when the
    destination is missing or holds other bytes the phase prints its
    copy line and the destination then holds the bytes of the source. *)
Theorem copy_skipped_only_when_identical (cfg : config)
    (tool : list string -> gmap string FS.node -> run_result)
    (pr : string -> option (Z * Z)) (pf : string -> option float)
    (source_folder rel_path server_dir : string)
    (w0 : world) (m1 : gmap string FS.node) (t1 : list event)
    (content : list Byte.byte) :
  BASE_SERVER_DIR cfg = Some server_dir ->
  MODE cfg <> "nocopytotemp" ->
  let src := PosixPath.join source_folder rel_path in
  let ext := ext_of src in
  let dst := PosixPath.join server_dir rel_path in
  ext_in ext AUDIO_EXT
  || (negb (ext_in ext VIDEO_EXT) && negb (ext_in ext IMAGE_EXT)) = true ->
  (ensure_temp_root cfg ;; makedirs (PosixPath.dirname dst)) w0
  = (Ok tt, {| files := m1; trace := t1 |}) ->
  m1 !! src = Some (FS.File content) ->
  FS.isdir m1 (PosixPath.dirname dst) = true ->
  (m1 !! dst = Some (FS.File content) ->
   process_file_to_server cfg tool pr pf source_folder rel_path w0
   = (Ok tt,
      {| files := m1;
         trace := List.app t1
                    [Printed ("[SKIP] " ++ rel_path ++ " [Audio Already Exists]")] |}))
  /\ (m1 !! dst <> Some (FS.File content) ->
      FS.isdir m1 dst = false ->
      process_file_to_server cfg tool pr pf source_folder rel_path w0
      = (Ok tt,
         {| files := <[dst := FS.File content]> m1;
            trace := List.app t1
                       [Printed ("[COPY] " ++ rel_path ++ " -> " ++ rel_path)] |})).
Proof.
  intros Hbase Hmode src ext dst Hclass Hprep Hsrc Hparent.
  assert (Hrel : (if ext_in ext AUDIO_EXT then rel_path
                  else if ext_in ext VIDEO_EXT
                       then fst (PosixPath.splitext rel_path) ++ ".mp4"
                       else if ext_in ext IMAGE_EXT
                            then fst (PosixPath.splitext rel_path) ++ ".jpg"
                            else rel_path) = rel_path).
  { destruct (ext_in ext AUDIO_EXT); [reflexivity|].
    cbn [orb] in Hclass. apply andb_prop in Hclass as [Hv Hi].
    apply negb_true_iff in Hv, Hi. rewrite Hv, Hi. reflexivity. }
  assert (Hrun : process_file_to_server cfg tool pr pf source_folder rel_path w0
    = (do e <- path_exists dst;
       do same <- (if e
                   then do r <- try_ (do a <- sha256_file src;
                                      do b <- sha256_file dst;
                                      ret (if List.list_eq_dec Byte.byte_eq_dec a b
                                           then true else false));
                        ret (match r with Some true => true | _ => false end)
                   else ret false);
       if same then print ("[SKIP] " ++ rel_path ++ " [Audio Already Exists]")
       else print ("[COPY] " ++ rel_path ++ " -> " ++ rel_path) ;;
            copy_with_progress src dst) {| files := m1; trace := t1 |}).
  { unfold process_file_to_server. rewrite Hbase.
    destruct (String.eqb_spec (MODE cfg) "nocopytotemp") as [|_]; [contradiction|].
    fold src. fold ext. rewrite Hrel. fold dst. rewrite Hclass.
    rewrite <- bind_assoc. rewrite (bind_ok _ _ _ _ tt Hprep). reflexivity. }
  rewrite Hrun. clear Hrun.
  split.
  - intros Hdst.
    unfold FS.isdir in Hparent.
    repeat (progress
              (cbv beta iota delta
                 [bind path_exists get_files ret try_ sha256_file print raise
                  files trace FS.exists_ FS.read_all];
               try rewrite Hdst; try rewrite Hsrc)).
    destruct (List.list_eq_dec Byte.byte_eq_dec content content) as [_|Hne];
      [reflexivity|contradiction].
  - intros Hdst Hnodir.
    assert (Hcopy : copy_with_progress src dst
                      {| files := m1;
                         trace := List.app t1
                           [Printed ("[COPY] " ++ rel_path ++ " -> " ++ rel_path)] |}
                    = (Ok tt,
                       {| files := <[dst := FS.File content]> m1;
                          trace := List.app t1
                            [Printed ("[COPY] " ++ rel_path ++ " -> " ++ rel_path)] |})).
    { cbv beta iota delta [copy_with_progress bind get_files set_files raise
                           files trace FS.read_all].
      rewrite Hsrc, Hnodir, Hparent. reflexivity. }
    destruct (m1 !! dst) as [[c'|]|] eqn:Hd.
    + repeat (progress
                (cbv beta iota delta
                   [bind path_exists get_files ret try_ sha256_file print raise
                    files trace FS.exists_ FS.read_all];
                 try rewrite Hd; try rewrite Hsrc)).
      destruct (List.list_eq_dec Byte.byte_eq_dec content c') as [Heq|_];
        [subst c'; contradiction|]. exact Hcopy.
    + unfold FS.isdir in Hnodir. rewrite Hd in Hnodir. discriminate.
    + repeat (progress
                (cbv beta iota delta
                   [bind path_exists get_files ret try_ sha256_file print raise
                    files trace FS.exists_ FS.read_all];
                 try rewrite Hd; try rewrite Hsrc)).
      exact Hcopy.
Qed.

Lemma copy_skipped_only_when_identical_witness :
  process_file_to_server Sample.mirror_cfg Sample.tool_ok
    Sample.probe_resolution Sample.probe_fps "/srv/media" "song.mp3" Sample.start
  = (Ok tt,
     {| files := <["/app/_temp/_server/song.mp3" := FS.File Sample.hello]>
                   Sample.cache;
        trace := [Printed "[COPY] song.mp3 -> song.mp3"] |})
  /\ process_file_to_server Sample.mirror_cfg Sample.tool_ok
       Sample.probe_resolution Sample.probe_fps "/srv/media" "song.mp3"
       {| files := <["/app/_temp/_server/song.mp3" := FS.File Sample.hello]>
                     Sample.cache;
          trace := [] |}
     = (Ok tt,
        {| files := <["/app/_temp/_server/song.mp3" := FS.File Sample.hello]>
                      Sample.cache;
           trace := [Printed "[SKIP] song.mp3 [Audio Already Exists]"] |}).
Proof.
  split.
  - apply (proj2 (copy_skipped_only_when_identical Sample.mirror_cfg Sample.tool_ok
             Sample.probe_resolution Sample.probe_fps "/srv/media" "song.mp3"
             "/app/_temp/_server" Sample.start Sample.cache [] Sample.hello
             eq_refl ltac:(discriminate) eq_refl
             ltac:(vm_compute; reflexivity) ltac:(vm_compute; reflexivity)
             ltac:(vm_compute; reflexivity))).
    + vm_compute. discriminate.
    + vm_compute. reflexivity.
  - apply (proj1 (copy_skipped_only_when_identical Sample.mirror_cfg Sample.tool_ok
             Sample.probe_resolution Sample.probe_fps "/srv/media" "song.mp3"
             "/app/_temp/_server"
             {| files := <["/app/_temp/_server/song.mp3" := FS.File Sample.hello]>
                           Sample.cache;
                trace := [] |}
             (<["/app/_temp/_server/song.mp3" := FS.File Sample.hello]> Sample.cache)
             [] Sample.hello
             eq_refl ltac:(discriminate) eq_refl
             ltac:(vm_compute; reflexivity) ltac:(vm_compute; reflexivity)
             ltac:(vm_compute; reflexivity))).
    vm_compute. reflexivity.
Defined.

End MirrorCopy.

(** ** Image navigation of the player *)

Section PlayerNavigation.

Lemma list_index_first (x : string) (before after : list string) :
  ~ List.In x before ->
  Sync.list_index x (List.app before (x :: after)) = Some (List.length before).
Proof.
  induction before as [|b rest IH]; intros Hnot; cbn [List.app Sync.list_index].
  - rewrite String.eqb_refl. reflexivity.
  - destruct (String.eqb_spec b x) as [->|_].
    + exfalso. apply Hnot. left. reflexivity.
    + rewrite IH; [reflexivity|]. intros Hin. apply Hnot. right. exact Hin.
Qed.

Lemma neighbours_in_order (before after : list string) (x : string) :
  ~ List.In x before ->
  Player.neighbours (List.app before (x :: after)) x
  = (last_opt before, List.head after).
Proof.
  intros Hnot. unfold Player.neighbours.
  rewrite (list_index_first x before after Hnot). clear Hnot.
  f_equal.
  - induction before as [|p b' _] using List.rev_ind; [reflexivity|].
    unfold last_opt. rewrite List.rev_app_distr. cbn [List.rev List.app List.head].
    rewrite List.length_app. cbn [List.length].
    destruct (Nat.ltb_spec 0 (List.length b' + 1)); [|lia].
    rewrite <- List.app_assoc. cbn [List.app].
    rewrite List.nth_error_app2 by lia.
    replace (List.length b' + 1 - 1 - List.length b')%nat with 0%nat by lia.
    reflexivity.
  - rewrite List.length_app. cbn [List.length].
    destruct after as [|y rest]; cbn [List.head List.length].
    + destruct (Nat.ltb_spec (List.length before)
                  (List.length before + 1 - 1)); [lia|reflexivity].
    + destruct (Nat.ltb_spec (List.length before)
                  (List.length before + S (S (List.length rest)) - 1)); [|lia].
      rewrite List.nth_error_app2 by lia.
      replace (List.length before + 1 - List.length before)%nat with 1%nat by lia.
      reflexivity.
Qed.

Lemma image_name_not_empty (f : string) :
  ext_in (ext_of f) IMAGE_EXT = true -> f <> "".
Proof. intros H Heq. subst f. vm_compute in H. discriminate. Qed.

Lemma last_opt_in {A} (l : list A) (x : A) : last_opt l = Some x -> List.In x l.
Proof.
  unfold last_opt. intros H. apply List.in_rev.
  destruct (List.rev l) as [|y r]; [discriminate|].
  inversion H; subst. left. reflexivity.
Qed.

Lemma head_in {A} (l : list A) (x : A) : List.head l = Some x -> List.In x l.
Proof. destruct l as [|y r]; [discriminate|]. intros H. inversion H. left. reflexivity. Qed.

(** X9: on the page of an image the Previous and Next buttons follow
    the sorted list of the images of its folder: Previous leads to the
    image right before it and is disabled for the first image, Next
    leads to the image right after it and is disabled for the last one;
    both targets keep the mode and the page of the request. *)
Theorem image_buttons_follow_order (m : gmap string FS.node)
    (filepath rel query : string) (before after : list string) :
  Player.sibling_images m filepath
  = List.app before (FS.basename filepath :: after) ->
  ~ List.In (FS.basename filepath) before ->
  let url f := Player.nav_url rel f (Player.qs_opt query "mode")
                 (Player.qs_opt query "page") in
  Player.image_buttons m filepath rel query
  = (option_map url (last_opt before), option_map url (List.head after)).
Proof.
  intros Himages Hfirst url. unfold Player.image_buttons.
  assert (Hname : forall f, List.In f (Player.sibling_images m filepath) -> f <> "").
  { intros f Hin. unfold Player.sibling_images in Hin.
    apply List.filter_In in Hin as [_ Hext]. apply image_name_not_empty. exact Hext. }
  rewrite Himages in *. rewrite (neighbours_in_order before after _ Hfirst).
  assert (Hbutton : forall o : option string,
             (forall f, o = Some f -> f <> "") ->
             (if Player.truthy o
              then Some (Player.nav_url rel (Player.text_of o)
                           (Player.qs_opt query "mode") (Player.qs_opt query "page"))
              else None) = option_map url o).
  { intros [f|] Hf; [|reflexivity]. cbn [Player.truthy Player.text_of option_map].
    rewrite (proj2 (String.eqb_neq f "") (Hf f eq_refl)). reflexivity. }
  f_equal; apply Hbutton; intros f Hf; apply Hname, List.in_or_app.
  - left. apply last_opt_in. exact Hf.
  - right. right. apply head_in. exact Hf.
Qed.

Lemma image_buttons_follow_order_witness :
  Player.image_buttons Sample.album "/srv/album/p02.jpg" "album/p02.jpg"
    "view=1&mode=paged&page=1"
  = (Some "/album/p01.jpg?view=1&mode=paged&page=1",
     Some "/album/p03.jpg?view=1&mode=paged&page=1")
  /\ Player.image_buttons Sample.album "/srv/album/p01.jpg" "album/p01.jpg" ""
     = (None, Some "/album/p02.jpg?view=1").
Proof.
  split.
  - rewrite (image_buttons_follow_order Sample.album "/srv/album/p02.jpg"
               "album/p02.jpg" "view=1&mode=paged&page=1"
               ["p01.jpg"] (List.skipn 2 Sample.album_names)).
    + reflexivity.
    + vm_compute. reflexivity.
    + vm_compute. intros [H|[]]. discriminate.
  - rewrite (image_buttons_follow_order Sample.album "/srv/album/p01.jpg"
               "album/p01.jpg" "" [] (List.skipn 1 Sample.album_names)).
    + reflexivity.
    + vm_compute. reflexivity.
    + intros [].
Defined.






End PlayerNavigation.

(** ** The probed size of an image *)

Section ProbedImages.

Lemma rstrip_space_blank (ws : string) : blank ws = true -> PyStr.rstrip_space ws = "".
Proof.
  induction ws as [|c r IH]; [reflexivity|]. cbn [blank]. intros H.
  apply andb_prop in H as [Hc Hr]. cbn [PyStr.rstrip_space].
  rewrite (IH Hr), Hc. reflexivity.
Qed.

Lemma rstrip_space_digits_blank (ds ws : string) :
  digits_only ds = true -> blank ws = true -> PyStr.rstrip_space (ds ++ ws) = ds.
Proof.
  intros Hds Hws. induction ds as [|c r IH]; [exact (rstrip_space_blank ws Hws)|].
  apply digits_only_cons in Hds as (d & Hd & Hr).
  change (String c r ++ ws) with (String c (r ++ ws)).
  cbn [PyStr.rstrip_space]. rewrite (IH Hr), (digit_not_space c d Hd).
  destruct r; reflexivity.
Qed.

Lemma rstrip_space_app (a b : string) :
  PyStr.rstrip_space b <> "" -> PyStr.rstrip_space (a ++ b) = a ++ PyStr.rstrip_space b.
Proof.
  intros Hb. induction a as [|c r IH]; [reflexivity|].
  change (String c r ++ b) with (String c (r ++ b)).
  cbn [PyStr.rstrip_space]. rewrite IH.
  change (String c r ++ PyStr.rstrip_space b)
    with (String c (r ++ PyStr.rstrip_space b)).
  destruct (r ++ PyStr.rstrip_space b) as [|c' r'] eqn:E; [|reflexivity].
  destruct r; [|discriminate]. exfalso. apply Hb. exact E.
Qed.

Lemma strip_space_size_line (W H ws : string) :
  digits_only W = true -> W <> "" -> digits_only H = true -> H <> "" ->
  blank ws = true ->
  PyStr.strip_space (W ++ "x" ++ H ++ ws) = W ++ String "x" H.
Proof.
  intros HW HWne HH HHne Hws. unfold PyStr.strip_space.
  assert (Hl : PyStr.lstrip_space (W ++ "x" ++ H ++ ws) = W ++ "x" ++ H ++ ws).
  { destruct W as [|c r]; [congruence|].
    apply digits_only_cons in HW as (d & Hd & _).
    change (String c r ++ "x" ++ H ++ ws) with (String c (r ++ "x" ++ H ++ ws)).
    cbn [PyStr.lstrip_space]. rewrite (digit_not_space c d Hd). reflexivity. }
  rewrite Hl.
  assert (Hr : PyStr.rstrip_space (H ++ ws) = H)
    by (apply rstrip_space_digits_blank; assumption).
  change ("x" ++ H ++ ws) with (String "x" (H ++ ws)).
  assert (Hx : PyStr.rstrip_space (String "x" (H ++ ws)) = String "x" H).
  { cbn [PyStr.rstrip_space]. rewrite Hr. destruct H; [congruence|reflexivity]. }
  rewrite rstrip_space_app; rewrite Hx; [reflexivity|discriminate].
Qed.

Lemma resolution_of_size_line (W H ws : string) :
  digits_only W = true -> W <> "" -> digits_only H = true -> H <> "" ->
  blank ws = true ->
  Probe.resolution_of_stdout (W ++ "x" ++ H ++ ws) = (decimal W, decimal H).
Proof.
  intros HW HWne HH HHne Hws. unfold Probe.resolution_of_stdout.
  rewrite (strip_space_size_line W H ws HW HWne HH HHne Hws).
  assert (Hne : String.eqb (W ++ String "x" H) "" = false)
    by (destruct W; [congruence|reflexivity]).
  rewrite Hne.
  rewrite (split_app_sep "x" W H (digits_only_no_char "x" W eq_refl HW)).
  rewrite (split_no_sep "x" H (digits_only_no_char "x" H eq_refl HH)).
  rewrite (int_digits W HW HWne), (int_digits H HH HHne). reflexivity.
Qed.

(** X11: the size line [WxH] that [ffprobe] prints (decimal digits,
    white space after it) is read back as the pair (W, H), and
    [convert_image_full] then pins the longer side to 2048 pixels: the
    height for a portrait image (0 < W < H), the width in every other
    case, also for an image smaller than 2048 pixels. *)
Theorem probed_size_picks_scale (cfg : config) (stdout_of : string -> option string)
    (src dst W H ws : string) :
  digits_only W = true -> W <> "" -> digits_only H = true -> H <> "" ->
  blank ws = true ->
  stdout_of src = Some (W ++ "x" ++ H ++ ws) ->
  Sync.ffprobe_resolution (Probe.probe_resolution stdout_of) src
  = (decimal W, decimal H)
  /\ List.nth_error (Sync.image_cmd cfg (Probe.probe_resolution stdout_of) src dst) 5
     = Some (if (0 <? decimal W) && (decimal W <? decimal H)
             then "scale=-2:2048" else "scale=2048:-2").
Proof.
  intros HW HWne HH HHne Hws Hout.
  assert (Hprobe : Sync.ffprobe_resolution (Probe.probe_resolution stdout_of) src
                   = (decimal W, decimal H)).
  { unfold Sync.ffprobe_resolution, Probe.probe_resolution. rewrite Hout.
    cbn [option_map]. apply resolution_of_size_line; assumption. }
  split; [exact Hprobe|].
  unfold Sync.image_cmd. rewrite Hprobe. cbn [List.nth_error].
  pose proof (decimal_from_nonneg W 0 ltac:(lia)) as Hw.
  pose proof (decimal_from_nonneg H 0 ltac:(lia)) as Hh.
  fold (decimal W) in Hw. fold (decimal H) in Hh.
  destruct (Z.eqb_spec (decimal W) 0), (Z.eqb_spec (decimal H) 0),
    (Z.leb_spec (decimal H) (decimal W)), (Z.ltb_spec 0 (decimal W)),
    (Z.ltb_spec (decimal W) (decimal H));
    cbn [orb andb]; try lia; reflexivity.
Qed.

Lemma probed_size_picks_scale_witness :
  let stdout_of := fun _ : string => Some ("1080x1920" ++ Sync.nl) in
  Sync.ffprobe_resolution (Probe.probe_resolution stdout_of) "/srv/media/tall.png"
  = (1080, 1920)
  /\ List.nth_error
       (Sync.image_cmd Sample.cfg (Probe.probe_resolution stdout_of)
          "/srv/media/tall.png" "/app/_temp/_server/tall.jpg") 5
     = Some "scale=-2:2048".
Proof.
  exact (probed_size_picks_scale Sample.cfg
           (fun _ : string => Some ("1080x1920" ++ Sync.nl))
           "/srv/media/tall.png" "/app/_temp/_server/tall.jpg"
           "1080" "1920" Sync.nl
           eq_refl ltac:(discriminate) eq_refl ltac:(discriminate) eq_refl eq_refl).
Defined.

End ProbedImages.

(** ** The roots after a start from the environment *)

Section StartFromEnvironment.

(** X12: when [main] starts the server from the environment variables,
    the port is the integer read from the port variable, the source
    folder is the folder variable, and the mode key alone decides the
    served root: a key that starts with [nocopytotemp] or is the legacy
    key [ffmpeglog] (in any letter case) serves the selected folder
    itself, every other accepted key serves [_temp/_server]; the
    thumbnail and preview roots are always below [_temp/_images]. *)
Theorem env_launch_configures_roots (c0 : config)
    (env_mode env_port env_folder : string) (c : config) (port : Z) :
  Startup.main_from_env c0 (Some env_mode) (Some env_port) (Some env_folder)
  = Startup.Serving c port ->
  let temp := TEMP_ROOT c0 in
  let direct := PyStr.startswith (PyStr.lower env_mode) "nocopytotemp"
                || String.eqb (PyStr.lower env_mode) "ffmpeglog" in
  PyStr.int env_port = Some port
  /\ SOURCE_DIR c = Some env_folder
  /\ MODE c = (if direct then "nocopytotemp" else "copytotemp")
  /\ BASE_SERVER_DIR c
     = Some (if direct then env_folder else PosixPath.join temp "_server")
  /\ BASE_THUMB_DIR c
     = Some (PosixPath.join (PosixPath.join temp "_images") "_thumbnails")
  /\ BASE_COVER_DIR c
     = Some (PosixPath.join (PosixPath.join temp "_images") "_preview")
  /\ TEMP_ROOT c = temp.
Proof.
  intros Hlaunch temp direct. subst temp direct.
  unfold Startup.main_from_env in Hlaunch.
  destruct (Player.truthy (Some env_mode) && Player.truthy (Some env_port)
            && Player.truthy (Some env_folder)); [|discriminate].
  cbn [Player.text_of] in Hlaunch.
  unfold Startup.apply_mode_from_key, Startup.mode_choice in Hlaunch.
  remember (PyStr.lower env_mode) as key eqn:Hkey. clear Hkey.
  destruct (PyStr.int env_port) as [p|] eqn:Hport.
  2: { destruct (option_map snd _) as [[[? ?] ?]|]; discriminate. }
  unfold Startup.MODE_CHOICES in Hlaunch. cbn [List.find fst] in Hlaunch.
  repeat match type of Hlaunch with
  | context [String.eqb ?k key] =>
      let E := fresh "E" in
      destruct (String.eqb k key) eqn:E;
        [apply String.eqb_eq in E; subst key;
         cbn -[PosixPath.join] in Hlaunch; inversion Hlaunch; subst;
         repeat split; first [assumption|reflexivity]|]
  end.
  discriminate.
Qed.

Lemma env_launch_configures_roots_witness :
  match Startup.main_from_env Sample.cfg (Some "FFmpegLog") (Some " 8080 ")
          (Some "/srv/media") with
  | Startup.Serving c port =>
      port = 8080 /\ MODE c = "nocopytotemp" /\ BASE_SERVER_DIR c = Some "/srv/media"
  | _ => False
  end.
Proof.
  destruct (Startup.main_from_env Sample.cfg (Some "FFmpegLog") (Some " 8080 ")
              (Some "/srv/media")) as [|line|c port] eqn:E;
    try (vm_compute in E; discriminate).
  destruct (env_launch_configures_roots _ _ _ _ _ _ E)
    as (Hport & _ & Hmode & Hroot & _).
  split; [vm_compute in Hport; congruence|]. split; [exact Hmode|exact Hroot].
Defined.

End StartFromEnvironment.

(** ** A thumbnail pass over a tree that has its thumbnails *)

Section ThumbnailsInPlace.

Import Sync.

Variable cfg : config.
Variable cwd : string.
Variable tool : list string -> gmap string FS.node -> run_result.

Lemma calm_of_keeps (I : gmap string FS.node -> Prop) {A} (c : M A) :
  keeps I c -> calm I c.
Proof.
  intros Hc w r w' H HI. destruct (Hc w r w' H HI) as [HI' Ht].
  split; [exact HI'|rewrite Ht; reflexivity].
Qed.

Lemma calm_ret (I : gmap string FS.node -> Prop) {A} (a : A) : calm I (ret a).
Proof. apply calm_of_keeps, keeps_ret. Qed.

Lemma calm_print (I : gmap string FS.node -> Prop) (line : string) :
  calm I (print line).
Proof.
  intros w r w' H HI. unfold print in H. inversion H; subst. cbn [files trace].
  split; [exact HI|]. unfold commands. rewrite List.flat_map_app.
  cbn [List.flat_map]. rewrite !List.app_nil_r. reflexivity.
Qed.

Lemma calm_bind (I : gmap string FS.node -> Prop) {A B} (c : M A) (k : A -> M B) :
  calm I c -> (forall a, calm I (k a)) -> calm I (bind c k).
Proof.
  intros Hc Hk w r w' H HI. unfold bind in H.
  destruct (c w) as [[a| |] w1] eqn:Hcw;
    destruct (Hc _ _ _ Hcw HI) as [HI1 Ht1].
  - destruct (Hk a _ _ _ H HI1) as [HI2 Ht2]. split; [exact HI2|congruence].
  - inversion H; subst. split; assumption.
  - inversion H; subst. split; assumption.
Qed.

Lemma calm_when_exists (I : gmap string FS.node -> Prop) {B} (p : string)
    (k : bool -> M B) :
  (forall m, I m -> FS.exists_ m p = true) -> calm I (k true) ->
  calm I (bind (path_exists p) k).
Proof.
  intros Hp Hk w r w' H HI.
  unfold bind at 1, path_exists, bind, get_files, ret in H.
  rewrite (Hp _ HI) in H. exact (Hk _ _ _ H HI).
Qed.

Lemma calm_for_each (I : gmap string FS.node -> Prop) {A} (l : list A)
    (body : A -> M unit) :
  (forall x, List.In x l -> calm I (body x)) -> calm I (for_each l body).
Proof.
  induction l as [|x rest IH]; intros Hbody; cbn [for_each].
  - apply calm_ret.
  - apply calm_bind; [apply Hbody; left; reflexivity|].
    intros _. apply IH. intros y Hy. apply Hbody. right. exact Hy.
Qed.

Variable thumb_base source_folder : string.
Variable sorted_files : catalog.
Variable m0 : gmap string FS.node.

Local Abbreviation in_place := (thumbnails_in_place thumb_base source_folder sorted_files m0).

Lemma in_place_mkdir (m : gmap string FS.node) (p : string) :
  in_place m -> FS.exists_ m p = false ->
  FS.isdir m (PosixPath.dirname p) = true -> in_place (<[p := FS.Dir]> m).
Proof.
  intros [Hthumbs Hnew] He _.
  assert (Hmiss : m !! p = None).
  { unfold FS.exists_ in He. destruct (m !! p); [discriminate|reflexivity]. }
  split.
  - unfold thumbnails_present in *. apply List.forallb_forall.
    intros e Hin. pose proof (proj1 (List.forallb_forall _ _) Hthumbs e Hin) as Hok.
    unfold needs_thumbnail in *.
    destruct (ext_in (ext_of (PosixPath.join source_folder (fst e))) IMAGE_EXT);
      [|reflexivity].
    cbn [andb] in *. unfold FS.exists_ in *.
    destruct (decide (thumb_path thumb_base (fst e) = p)) as [->|Hne].
    + rewrite lookup_insert_eq. reflexivity.
    + rewrite lookup_insert_ne by congruence. exact Hok.
  - intros q. destruct (decide (q = p)) as [->|Hne].
    + right. rewrite lookup_insert_eq. split; [|reflexivity].
      destruct (Hnew p) as [Heq|[Hnone _]]; [congruence|exact Hnone].
    + rewrite lookup_insert_ne by congruence. apply Hnew.
Qed.

Lemma in_place_thumbnail (m : gmap string FS.node) (rel : string) (size : Z) :
  List.In (rel, size) sorted_files ->
  ext_in (ext_of (PosixPath.join source_folder rel)) IMAGE_EXT = true ->
  in_place m -> FS.exists_ m (thumb_path thumb_base rel) = true.
Proof.
  intros Hin Himage [Hthumbs _].
  pose proof (proj1 (List.forallb_forall _ _) Hthumbs _ Hin) as Hok.
  unfold needs_thumbnail in Hok. cbn [fst] in Hok. rewrite Himage in Hok.
  cbn [andb] in Hok. destruct (FS.exists_ m (thumb_path thumb_base rel));
    [reflexivity|discriminate].
Qed.

Lemma calm_thumbnail_pass :
  BASE_THUMB_DIR cfg = Some thumb_base ->
  calm in_place (generate_thumbnails_first cfg cwd tool source_folder sorted_files).
Proof.
  intros Hbase. unfold generate_thumbnails_first. rewrite Hbase.
  apply calm_bind; [apply calm_print|]. intros _.
  apply calm_for_each. intros [rel size] Hin.
  destruct (ext_in (ext_of (PosixPath.join source_folder rel)) IMAGE_EXT) eqn:Himage;
    cbn [negb]; [|apply calm_ret].
  apply calm_bind;
    [apply calm_of_keeps, keeps_ensure_images_root, in_place_mkdir|]. intros _.
  apply calm_bind; [apply calm_of_keeps, keeps_makedirs, in_place_mkdir|]. intros _.
  apply calm_when_exists; [|apply calm_print].
  intros m Hm. exact (in_place_thumbnail m rel size Hin Himage Hm).
Qed.

End ThumbnailsInPlace.

(** X13: a thumbnail pass over a tree in which every picture of the
    catalog has its thumbnail runs no command, whatever the catalog and
    the tree are and however the pass ends: files are neither written
    nor removed, at most folders are created, and the thumbnails are
    still there afterwards. *)
Theorem thumbnail_pass_runs_nothing_twice (cfg : config) (cwd : string)
    (tool : list string -> gmap string FS.node -> Sync.run_result)
    (thumb_base source_folder : string) (sorted_files : Sync.catalog)
    (w w' : Sync.world) (r : Sync.outcome unit) :
  BASE_THUMB_DIR cfg = Some thumb_base ->
  thumbnails_present (Sync.files w) thumb_base source_folder sorted_files = true ->
  Sync.generate_thumbnails_first cfg cwd tool source_folder sorted_files w = (r, w') ->
  commands (Sync.trace w') = commands (Sync.trace w)
  /\ only_new_folders (Sync.files w) (Sync.files w')
  /\ thumbnails_present (Sync.files w') thumb_base source_folder sorted_files = true.
Proof.
  intros Hbase Hthumbs Hrun.
  destruct (calm_thumbnail_pass cfg cwd tool thumb_base source_folder sorted_files
              (Sync.files w) Hbase w r w' Hrun) as [[Hthumbs' Hnew] Hcmds].
  - split; [exact Hthumbs|]. intros p. left. reflexivity.
  - split; [exact Hcmds|]. split; assumption.
Qed.

Lemma thumbnail_pass_runs_nothing_twice_witness :
  let run := Sync.generate_thumbnails_first Sample.mirror_cfg "/" Sample.tool_ok
               "/srv/media" [("pic.jpg", 2); ("song.mp3", 2); ("clip.mov", 6)]
               Sample.start in
  commands (Sync.trace (snd run)) = []
  /\ only_new_folders Sample.cache (Sync.files (snd run))
  /\ thumbnails_present (Sync.files (snd run)) "/app/_temp/_images/_thumbnails"
       "/srv/media" [("pic.jpg", 2); ("song.mp3", 2); ("clip.mov", 6)] = true.
Proof.
  intros run.
  exact (thumbnail_pass_runs_nothing_twice Sample.mirror_cfg "/" Sample.tool_ok
           "/app/_temp/_images/_thumbnails" "/srv/media"
           [("pic.jpg", 2); ("song.mp3", 2); ("clip.mov", 6)]
           Sample.start (snd run) (fst run) eq_refl eq_refl
           (surjective_pairing run)).
Defined.
